(** * AI Gateway backend service: request validation, the LiteLLM chat
      endpoint and the direct Vertex AI endpoint

    A shallow embedding of [src/backend-service/main.py].  Handlers are
    written in a small state-and-exception monad over the process state
    (shared HTTP client, Prometheus counters, scheduled background tasks,
    outbound calls).  What the network, the clock and the Vertex AI SDK
    answer is an input of each call.

    Left out: the logging middleware with its per-request counter and
    histogram, and when the scheduled background tasks are run. *)

From Stdlib Require Import ZArith Ascii String PrimFloat.
From stdpp Require Import gmap strings list pretty.

Set Warnings "-inexact-float,-register-all".

Local Open Scope string_scope.
Local Open Scope Z_scope.

(** ** Python values read from the wire *)

(** A field of a JSON request body: left out, [null], or a value. *)
Inductive Field (A : Type) : Type :=
| Absent
| Null
| Val (v : A).
Arguments Absent {A}.
Arguments Null {A}.
Arguments Val {A} v.

(** ** Pydantic models (main.py, lines 63-89) *)

Module ChatRequest.
Record t : Type := mk {
  message : string;
  model : string;
  temperature : option float;
  max_tokens : option Z;
  system_prompt : option string;
  conversation_id : option string
}.
End ChatRequest.

(** The request body as it arrives, before [ChatRequest] validates it. *)
Record RawChatRequest : Type := {
  raw_message : Field string;
  raw_model : Field string;
  raw_temperature : Field float;
  raw_max_tokens : Field Z;
  raw_system_prompt : Field string;
  raw_conversation_id : Field string
}.

(** [Field(..., ge=lo, le=hi)] on a float: both comparisons are IEEE
    comparisons, so a NaN is rejected. *)
Definition float_ge_le (lo hi x : float) : bool :=
  (PrimFloat.leb lo x && PrimFloat.leb x hi)%bool.

Definition int_ge_le (lo hi x : Z) : bool :=
  ((lo <=? x) && (x <=? hi))%bool.

(** A required [str] field: [Field(...)]. *)
Definition required_str (f : Field string) : option string :=
  match f with
  | Val s => Some s
  | Absent | Null => None
  end.

(** A [str] field with a default: [null] is not a [str]. *)
Definition default_str (d : string) (f : Field string) : option string :=
  match f with
  | Absent => Some d
  | Val s => Some s
  | Null => None
  end.

(** An [Optional[T]] field with a default and a constraint: the default is
    taken as it is, [null] is accepted as [None], and only a value is
    checked against the constraint. *)
Definition optional_checked {A} (d : option A) (ok : A -> bool) (f : Field A)
  : option (option A) :=
  match f with
  | Absent => Some d
  | Null => Some None
  | Val v => if ok v then Some (Some v) else None
  end.

(** Building a [ChatRequest] from the body: [None] stands for pydantic's
    [ValidationError]. *)
Definition validate (raw : RawChatRequest) : option ChatRequest.t :=
  match required_str (raw_message raw),
        default_str "gemini-pro" (raw_model raw),
        optional_checked (Some 0.7%float) (float_ge_le 0.0 2.0) (raw_temperature raw),
        optional_checked (Some 1000) (int_ge_le 1 4000) (raw_max_tokens raw),
        optional_checked None (fun _ => true) (raw_system_prompt raw),
        optional_checked None (fun _ => true) (raw_conversation_id raw) with
  | Some m, Some mo, Some t, Some mt, Some sp, Some cid =>
      Some (ChatRequest.mk m mo t mt sp cid)
  | _, _, _, _, _, _ => None
  end.

Module ChatResponse.
Record t : Type := mk {
  response : string;
  model : string;
  tokens_used : option Z;
  conversation_id : option string;
  timestamp : Z;
  processing_time : float
}.
End ChatResponse.

(** ** JSON bodies as Python objects *)

(** What [response.json()] returns.  An object is the parsed [dict], written
    as the list of its items (keys are distinct); numbers are integers, the
    only number the handler reads being [usage.total_tokens]. *)
Inductive JSON : Type :=
| JNull
| JBool (b : bool)
| JNum (n : Z)
| JStr (s : string)
| JArr (items : list JSON)
| JObj (items : list (string * JSON)).

(** ** Exceptions *)

(** The exception classes the handlers tell apart, in the order of the
    [except] clauses: [httpx.TimeoutException] is a [httpx.RequestError],
    and all of them, [fastapi.HTTPException] included, are [Exception]s. *)
Inductive Exn : Type :=
| TimeoutException (msg : string)
| RequestError (msg : string)
| HTTPException (status_code : Z) (detail : string)
| PyError (cls msg : string).

Inductive result (A : Type) : Type :=
| Return (a : A)
| Raise (e : Exn).
Arguments Return {A} a.
Arguments Raise {A} e.

(** [str(e)] *)
Definition str (e : Exn) : string :=
  match e with
  | TimeoutException msg | RequestError msg | PyError _ msg => msg
  | HTTPException status_code detail => pretty status_code +:+ ": " +:+ detail
  end.

Fixpoint dict_get (k : string) (items : list (string * JSON)) : option JSON :=
  match items with
  | [] => None
  | (k', v) :: rest => if String.eqb k' k then Some v else dict_get k rest
  end.

(** [o[k]] for a string key [k] *)
Definition getitem (o : JSON) (k : string) : result JSON :=
  match o with
  | JObj items =>
      match dict_get k items with
      | Some v => Return v
      | None => Raise (PyError "KeyError" ("'" +:+ k +:+ "'"))
      end
  | JArr _ => Raise (PyError "TypeError" "list indices must be integers or slices, not str")
  | JStr _ => Raise (PyError "TypeError" "string indices must be integers")
  | JNull | JBool _ | JNum _ => Raise (PyError "TypeError" "object is not subscriptable")
  end.

(** A [str] is held as the bytes of its UTF-8 text.  A byte [10xxxxxx]
    continues the character begun before it. *)
Definition is_continuation (c : ascii) : bool :=
  let n := Z.of_nat (nat_of_ascii c) in
  ((128 <=? n) && (n <? 192))%bool.

(** [len(s)] for a [str]: its characters, not its bytes. *)
Fixpoint str_len (s : string) : Z :=
  match s with
  | EmptyString => 0
  | String c rest => (if is_continuation c then 0 else 1) + str_len rest
  end.

(** The continuation bytes a string starts with. *)
Fixpoint leading_continuations (s : string) : string :=
  match s with
  | String c rest =>
      if is_continuation c then String c (leading_continuations rest) else EmptyString
  | EmptyString => EmptyString
  end.

(** [o[0]]; the first character of a [str] is its first byte with the
    bytes that continue it. *)
Definition getitem0 (o : JSON) : result JSON :=
  match o with
  | JArr (x :: _) => Return x
  | JArr [] => Raise (PyError "IndexError" "list index out of range")
  | JStr (String c rest) => Return (JStr (String c (leading_continuations rest)))
  | JStr EmptyString => Raise (PyError "IndexError" "string index out of range")
  | JObj _ => Raise (PyError "KeyError" "0")
  | JNull | JBool _ | JNum _ => Raise (PyError "TypeError" "object is not subscriptable")
  end.

(** [o.get(k, default)]: only a [dict] has [get].  Python's [None] and
    JSON's [null] are the same object, [JNull]. *)
Definition get (o : JSON) (k : string) (default : JSON) : result JSON :=
  match o with
  | JObj items =>
      match dict_get k items with
      | Some v => Return v
      | None => Return default
      end
  | _ => Raise (PyError "AttributeError" "object has no attribute 'get'")
  end.

(** ** Process state *)

(** [httpx._client.ClientState] *)
Inductive ClientState : Type := UNOPENED | OPENED | CLOSED.

(** The fields of [Settings] the two chat handlers read. *)
Record Settings : Type := {
  litellm_url : string;
  vertex_ai_project : string;
  vertex_ai_region : string
}.

Record Message : Type := { role : string; content : string }.

(** The [litellm_request] dictionary: its four keys. *)
Record LiteLLMRequest : Type := {
  lr_model : string;
  lr_messages : list Message;
  lr_temperature : option float;
  lr_max_tokens : option Z
}.

(** One [background_tasks.add_task(log_chat_request, ...)]. *)
Record AuditTask : Type := {
  task_model : string;
  task_user_message : string;
  task_ai_response : JSON;
  task_processing_time : float;
  task_tokens_used : JSON
}.

(** One [model.generate_content(...)] of the Vertex AI SDK. *)
Record GenerateCall : Type := {
  gen_model : string;
  gen_prompt : string;
  gen_temperature : option float;
  gen_max_output_tokens : option Z
}.

(** One [logger.error(event, error=str(e), ...)], with the one more keyword
    some call sites give: [model=...] or [path=...]. *)
Record ErrorLog : Type := {
  log_event : string;
  log_error : string;
  log_extra : option (string * string)
}.

(** A request handed to the shared client. *)
Inductive OutboundRequest : Type :=
| POST (url : string) (payload : LiteLLMRequest)
| GET (url : string).

(** Module-level state of [main.py], with the calls that left the process. *)
Record World : Type := mkWorld {
  settings : Settings;
  http_client : ClientState;
  vertex_ai_available : bool;
  LITELLM_REQUESTS : gmap (string * string) nat;
  VERTEX_AI_REQUESTS : gmap (string * string) nat;
  background_tasks : list AuditTask;
  outbound_requests : list OutboundRequest;
  sdk_calls : list GenerateCall;
  error_log : list ErrorLog
}.

Definition set_http_client (s : ClientState) (w : World) : World :=
  mkWorld (settings w) s (vertex_ai_available w) (LITELLM_REQUESTS w)
          (VERTEX_AI_REQUESTS w) (background_tasks w) (outbound_requests w)
          (sdk_calls w) (error_log w).

Definition set_LITELLM_REQUESTS (c : gmap (string * string) nat) (w : World) : World :=
  mkWorld (settings w) (http_client w) (vertex_ai_available w) c
          (VERTEX_AI_REQUESTS w) (background_tasks w) (outbound_requests w)
          (sdk_calls w) (error_log w).

Definition set_VERTEX_AI_REQUESTS (c : gmap (string * string) nat) (w : World) : World :=
  mkWorld (settings w) (http_client w) (vertex_ai_available w) (LITELLM_REQUESTS w)
          c (background_tasks w) (outbound_requests w) (sdk_calls w) (error_log w).

Definition set_background_tasks (t : list AuditTask) (w : World) : World :=
  mkWorld (settings w) (http_client w) (vertex_ai_available w) (LITELLM_REQUESTS w)
          (VERTEX_AI_REQUESTS w) t (outbound_requests w) (sdk_calls w) (error_log w).

Definition set_outbound_requests (p : list OutboundRequest) (w : World) : World :=
  mkWorld (settings w) (http_client w) (vertex_ai_available w) (LITELLM_REQUESTS w)
          (VERTEX_AI_REQUESTS w) (background_tasks w) p (sdk_calls w) (error_log w).

Definition set_sdk_calls (c : list GenerateCall) (w : World) : World :=
  mkWorld (settings w) (http_client w) (vertex_ai_available w) (LITELLM_REQUESTS w)
          (VERTEX_AI_REQUESTS w) (background_tasks w) (outbound_requests w) c (error_log w).

Definition set_error_log (l : list ErrorLog) (w : World) : World :=
  mkWorld (settings w) (http_client w) (vertex_ai_available w) (LITELLM_REQUESTS w)
          (VERTEX_AI_REQUESTS w) (background_tasks w) (outbound_requests w) (sdk_calls w) l.

(** Lines 110-119: the shared client is built once, and the Vertex AI
    client is initialised inside [try]; [vertex_init] is [Raise] when
    [default()] or [aiplatform.init] raised. *)
Definition startup (s : Settings) (vertex_init : result unit) : World :=
  mkWorld s UNOPENED
          (match vertex_init with Return _ => true | Raise _ => false end)
          ∅ ∅ [] [] [] [].

(** ** The handler monad: state and exceptions *)

Definition M (A : Type) : Type := World -> World * result A.

Definition ret {A} (a : A) : M A := fun w => (w, Return a).

Definition raise {A} (e : Exn) : M A := fun w => (w, Raise e).

Definition bind {A B} (c : M A) (k : A -> M B) : M B :=
  fun w =>
    match c w with
    | (w', Return a) => k a w'
    | (w', Raise e) => (w', Raise e)
    end.

Notation "x <- c ;; k" := (bind c (fun x => k))
  (at level 100, c at next level, right associativity).
Notation "c ;;; k" := (bind c (fun _ => k))
  (at level 100, right associativity).

(** [try: body  except ...: handler] *)
Definition try_except {A} (body : M A) (handler : Exn -> M A) : M A :=
  fun w =>
    match body w with
    | (w', Return a) => (w', Return a)
    | (w', Raise e) => handler e w'
    end.

Definition lift {A} (r : result A) : M A := fun w => (w, r).

Definition modify (f : World -> World) : M unit := fun w => (f w, Return tt).

(** [COUNTER.labels(model=..., status=...).inc()] *)
Definition inc (model status : string) (c : gmap (string * string) nat)
  : gmap (string * string) nat :=
  <[(model, status) := S (c !!! (model, status))]> c.

Definition LITELLM_REQUESTS_inc (model status : string) : M unit :=
  modify (fun w => set_LITELLM_REQUESTS (inc model status (LITELLM_REQUESTS w)) w).

Definition VERTEX_AI_REQUESTS_inc (model status : string) : M unit :=
  modify (fun w => set_VERTEX_AI_REQUESTS (inc model status (VERTEX_AI_REQUESTS w)) w).

Definition logger_error (event error : string) (extra : option (string * string))
  : M unit :=
  modify (fun w => set_error_log (error_log w ++ [Build_ErrorLog event error extra]) w).

(** ** The shared [httpx.AsyncClient] (line 110) *)

(** [AsyncClient.__aenter__]: a client can be entered once. *)
Definition aenter : M unit :=
  fun w =>
    match http_client w with
    | UNOPENED => (set_http_client OPENED w, Return tt)
    | OPENED =>
        (w, Raise (PyError "RuntimeError" "Cannot open a client instance more than once."))
    | CLOSED =>
        (w, Raise (PyError "RuntimeError"
                     "Cannot reopen a client instance, once it has been closed."))
    end.

(** [async with http_client as client: body].  [__aexit__] closes the
    client whether the body returned or raised, and lets the exception
    through. *)
Definition async_with_http_client {A} (body : M A) : M A :=
  aenter ;;;
  (fun w => let '(w', r) := body w in (set_http_client CLOSED w', r)).

(** What the proxy answers. [json] is what [response.json()] does. *)
Record Response : Type := {
  status_code : Z;
  text : string;
  json : result JSON
}.

(** [await client.post(url, json=payload, ...)]: the request leaves the
    process and [outcome] is what comes back, a response or an exception. *)
Definition client_post (url : string) (payload : LiteLLMRequest)
    (outcome : result Response) : M Response :=
  fun w =>
    match http_client w with
    | CLOSED =>
        (w, Raise (PyError "RuntimeError"
                     "Cannot send a request, as the client has been closed."))
    | _ =>
        (set_outbound_requests (outbound_requests w ++ [POST url payload])
           (set_http_client OPENED w), outcome)
    end.

(** [await client.get(url)] *)
Definition client_get (url : string) (outcome : result Response) : M Response :=
  fun w =>
    match http_client w with
    | CLOSED =>
        (w, Raise (PyError "RuntimeError"
                     "Cannot send a request, as the client has been closed."))
    | _ =>
        (set_outbound_requests (outbound_requests w ++ [GET url])
           (set_http_client OPENED w), outcome)
    end.

(** ** [chat] (lines 220-298) *)

(** What one call of [chat] gets from outside the process: the clock, the
    answer of the proxy, and how pydantic reads a string that is given where
    an [int] is declared (which strings it takes for integers depends on
    its version). *)
Record ChatEnv : Type := {
  start_time : float;
  end_time : float;
  utcnow : Z;
  post : result Response;
  int_of_str : string -> option Z
}.

(** [if request.system_prompt:] is false for [None] and for the empty string. *)
Definition truthy (s : option string) : bool :=
  match s with
  | Some (String _ _) => true
  | Some EmptyString | None => false
  end.

(** Lines 229-243: the payload, the user message first and the system
    prompt then inserted at index 0. *)
Definition litellm_request (request : ChatRequest.t) : LiteLLMRequest :=
  let messages := [ {| role := "user"; content := ChatRequest.message request |} ] in
  let messages :=
    if truthy (ChatRequest.system_prompt request) then
      match ChatRequest.system_prompt request with
      | Some p => {| role := "system"; content := p |} :: messages
      | None => messages
      end
    else messages in
  {| lr_model := ChatRequest.model request;
     lr_messages := messages;
     lr_temperature := ChatRequest.temperature request;
     lr_max_tokens := ChatRequest.max_tokens request |}.

(** A value given for an [Optional[int]] field: [None] stays [None], an
    integer is taken as it is, a boolean is its integer, a string is read
    by [of_str]; lists and dictionaries are turned down. *)
Definition optional_int (of_str : string -> option Z) (v : JSON) : option (option Z) :=
  match v with
  | JNull => Some None
  | JNum n => Some (Some n)
  | JBool b => Some (Some (if b then 1 else 0))
  | JStr s => match of_str s with Some n => Some (Some n) | None => None end
  | JArr _ | JObj _ => None
  end.

(** [ChatResponse(response=..., tokens_used=..., ...)]: [response] has to be
    a [str]; [tokens_used] is converted as an [Optional[int]]. *)
Definition ChatResponse_new (of_str : string -> option Z)
    (response : JSON) (model : string) (tokens_used : JSON)
    (conversation_id : option string) (timestamp : Z) (processing_time : float)
  : result ChatResponse.t :=
  match response, optional_int of_str tokens_used with
  | JStr s, Some tokens =>
      Return (ChatResponse.mk s model tokens conversation_id timestamp processing_time)
  | _, _ => Raise (PyError "ValidationError" "validation error for ChatResponse")
  end.

Definition add_task (t : AuditTask) : M unit :=
  modify (fun w => set_background_tasks (background_tasks w ++ [t]) w).

Definition chat_body (request : ChatRequest.t) (env : ChatEnv) : M ChatResponse.t :=
  let payload := litellm_request request in
  result <- async_with_http_client (
    url <- (fun w => (w, Return (litellm_url (settings w) +:+ "/chat/completions"))) ;;
    response <- client_post url payload (post env) ;;
    if negb (status_code response =? 200) then
      LITELLM_REQUESTS_inc (ChatRequest.model request) "error" ;;;
      raise (HTTPException (status_code response) ("LiteLLM error: " +:+ text response))
    else
      result <- lift (json response) ;;
      LITELLM_REQUESTS_inc (ChatRequest.model request) "success" ;;;
      ret result) ;;
  let processing_time := PrimFloat.sub (end_time env) (start_time env) in
  choices <- lift (getitem result "choices") ;;
  choice <- lift (getitem0 choices) ;;
  msg <- lift (getitem choice "message") ;;
  ai_response <- lift (getitem msg "content") ;;
  usage <- lift (get result "usage" (JObj [])) ;;
  tokens_used <- lift (get usage "total_tokens" JNull) ;;
  add_task {| task_model := ChatRequest.model request;
              task_user_message := ChatRequest.message request;
              task_ai_response := ai_response;
              task_processing_time := processing_time;
              task_tokens_used := tokens_used |} ;;;
  lift (ChatResponse_new (int_of_str env) ai_response (ChatRequest.model request)
          tokens_used (ChatRequest.conversation_id request) (utcnow env)
          processing_time).

(** The three [except] clauses, tried in order. *)
Definition chat_except (request : ChatRequest.t) (e : Exn) : M ChatResponse.t :=
  match e with
  | TimeoutException _ =>
      LITELLM_REQUESTS_inc (ChatRequest.model request) "timeout" ;;;
      raise (HTTPException 504 "Request timeout")
  | RequestError _ =>
      LITELLM_REQUESTS_inc (ChatRequest.model request) "error" ;;;
      raise (HTTPException 502 ("Connection error: " +:+ str e))
  | HTTPException _ _ | PyError _ _ =>
      LITELLM_REQUESTS_inc (ChatRequest.model request) "error" ;;;
      logger_error "Chat request failed" (str e)
        (Some ("model", ChatRequest.model request)) ;;;
      raise (HTTPException 500 "Internal server error")
  end.

Definition chat (request : ChatRequest.t) (env : ChatEnv) : M ChatResponse.t :=
  try_except (chat_body request env) (chat_except request).

(** ** [vertex_ai_chat] (lines 301-341) *)

(** The SDK's response object: reading [response.text] can itself raise. *)
Record GenerationResponse : Type := { response_text : result string }.

(** What one call of [vertex_ai_chat] gets from outside the process:
    [sdk_model] is the import of the SDK with [GenerativeModel(request.model)],
    [generate] is what [model.generate_content] does. *)
Record VertexEnv : Type := {
  v_start_time : float;
  v_end_time : float;
  v_utcnow : Z;
  sdk_model : result unit;
  generate : result GenerationResponse
}.

Definition generate_content (call : GenerateCall) (outcome : result GenerationResponse)
  : M GenerationResponse :=
  fun w => (set_sdk_calls (sdk_calls w ++ [call]) w, outcome).

Definition vertex_ai_chat_body (request : ChatRequest.t) (env : VertexEnv)
  : M ChatResponse.t :=
  lift (sdk_model env) ;;;
  response <- generate_content
                {| gen_model := ChatRequest.model request;
                   gen_prompt := ChatRequest.message request;
                   gen_temperature := ChatRequest.temperature request;
                   gen_max_output_tokens := ChatRequest.max_tokens request |}
                (generate env) ;;
  let processing_time := PrimFloat.sub (v_end_time env) (v_start_time env) in
  VERTEX_AI_REQUESTS_inc (ChatRequest.model request) "success" ;;;
  text <- lift (response_text response) ;;
  lift (ChatResponse_new (fun _ => None) (JStr text) (ChatRequest.model request) JNull
          (ChatRequest.conversation_id request) (v_utcnow env) processing_time).

Definition vertex_ai_chat_except (request : ChatRequest.t) (e : Exn) : M ChatResponse.t :=
  VERTEX_AI_REQUESTS_inc (ChatRequest.model request) "error" ;;;
  logger_error "Vertex AI request failed" (str e)
    (Some ("model", ChatRequest.model request)) ;;;
  raise (HTTPException 500 ("Vertex AI error: " +:+ str e)).

(** The availability guard comes first, outside the [try]. *)
Definition vertex_ai_chat (request : ChatRequest.t) (env : VertexEnv) : M ChatResponse.t :=
  fun w =>
    if negb (vertex_ai_available w) then
      raise (HTTPException 503 "Vertex AI not available") w
    else
      try_except (vertex_ai_chat_body request env) (vertex_ai_chat_except request) w.

(** ** The other path operations that touch the process state *)

(** [health_check] (lines 186-206): the two entries of [services]. *)
Definition health_check (outcome : result Response) : M (string * string) :=
  litellm <-
    try_except
      (async_with_http_client (
         url <- (fun w => (w, Return (litellm_url (settings w) +:+ "/health"))) ;;
         response <- client_get url outcome ;;
         ret (if status_code response =? 200 then "healthy" else "unhealthy")))
      (fun _ => ret "unhealthy") ;;
  (fun w => (w, Return (litellm,
                        if vertex_ai_available w then "healthy" else "unhealthy"))).

(** [list_models] (lines 344-358) *)
Definition list_models (outcome : result Response) : M JSON :=
  try_except
    (async_with_http_client (
       url <- (fun w => (w, Return (litellm_url (settings w) +:+ "/models"))) ;;
       response <- client_get url outcome ;;
       if status_code response =? 200 then lift (json response)
       else raise (HTTPException 502 "Failed to fetch models")))
    (fun e =>
       logger_error "Failed to fetch models" (str e) None ;;;
       raise (HTTPException 500 "Internal server error")).

(** [metrics] (lines 214-217): the name [Response] is not imported. *)
Definition metrics : M unit :=
  raise (PyError "NameError" "name 'Response' is not defined").

(** What [JSONResponse(content=ErrorResponse(...).dict())] does in both
    exception handlers: [dict()] keeps [timestamp] a [datetime], which the
    JSON encoder of the response turns down. *)
Definition JSONResponse_of_ErrorResponse {A} : M A :=
  raise (PyError "TypeError" "Object of type datetime is not JSON serializable").

(** [http_exception_handler] (lines 374-384) *)
Definition http_exception_handler {A} : M A := JSONResponse_of_ErrorResponse.

(** [general_exception_handler] (lines 386-397) *)
Definition general_exception_handler {A} (path : string) (exc : Exn) : M A :=
  logger_error "Unhandled exception" (str exc) (Some ("path", path)) ;;;
  JSONResponse_of_ErrorResponse.

(** The exception handlers around a path operation: an [HTTPException] goes
    to [http_exception_handler]; what that one raises, like any other
    exception of the path operation, goes to [general_exception_handler];
    what this one raises leaves the application. *)
Definition exception_handlers {A} (path : string) (handler : M A) : M A :=
  try_except
    (try_except handler
       (fun e =>
          match e with
          | HTTPException _ _ => http_exception_handler
          | _ => raise e
          end))
    (general_exception_handler path).

(** ** Routes *)

(** The path operations of [app]: those the decorators register, and the
    documentation pages [FastAPI(docs_url=..., redoc_url=...)] adds. *)
Inductive Route : Type :=
| Route_docs
| Route_health
| Route_ready
| Route_metrics
| Route_chat
| Route_vertex_ai_chat
| Route_models.

(** Each route with the methods it answers: a path operation answers the
    method of its decorator; the documentation pages, added as plain routes
    for GET, answer HEAD as well. *)
Definition routes : list (list string * string * Route) :=
  [ (["GET"; "HEAD"], "/openapi.json", Route_docs);
    (["GET"; "HEAD"], "/docs", Route_docs);
    (["GET"; "HEAD"], "/docs/oauth2-redirect", Route_docs);
    (["GET"; "HEAD"], "/redoc", Route_docs);
    (["GET"], "/health", Route_health);
    (["GET"], "/ready", Route_ready);
    (["GET"], "/metrics", Route_metrics);
    (["POST"], "/api/v1/chat", Route_chat);
    (["POST"], "/api/v1/vertex-ai/chat", Route_vertex_ai_chat);
    (["GET"], "/api/v1/models", Route_models) ].

Inductive Match : Type :=
| Full (r : Route)
| Partial
| RedirectSlashes
| NoMatch.

(** [method in route.methods] *)
Definition method_matches (registered : list string) (method : string) : bool :=
  existsb (String.eqb method) registered.

(** The first route whose path and method match; a path that matches with
    another method only is a partial match. *)
Fixpoint find_route (method path : string) (rs : list (list string * string * Route))
    (partial : bool) : Match :=
  match rs with
  | [] => if partial then Partial else NoMatch
  | (m, p, r) :: rest =>
      if String.eqb p path then
        if method_matches m method then Full r
        else find_route method path rest true
      else find_route method path rest partial
  end.

(** [path.rstrip("/")] *)
Fixpoint rstrip_slash (path : string) : string :=
  match path with
  | EmptyString => EmptyString
  | String c rest =>
      match rstrip_slash rest with
      | EmptyString => if Ascii.eqb c "/"%char then EmptyString else String c EmptyString
      | rest' => String c rest'
      end
  end.

(** The path with its trailing slashes removed, or with one added when it
    has none. *)
Definition toggle_slash (path : string) : string :=
  let stripped := rstrip_slash path in
  if String.eqb stripped path then path +:+ "/" else stripped.


(** The router: a full match, else a partial one, else a redirection when
    the path matches a route up to the trailing slash, else nothing. *)
Definition route (method path : string) : Match :=
  match find_route method path routes false with
  | NoMatch =>
      if (negb (String.eqb path "/")
          && existsb (fun r => String.eqb r.1.2 (toggle_slash path)) routes)%bool
      then RedirectSlashes else NoMatch
  | m => m
  end.

(** How a request was served: by the router or the validation of the body
    with a status of their own (404, 405, 307, 422), by one of the two chat
    handlers, with what it returned or with the exception that left the
    application, or by one of the other path operations. *)
Inductive Served : Type :=
| ByRouter (status : Z)
| ByChat (r : result ChatResponse.t)
| ByVertexAIChat (r : result ChatResponse.t)
| ByOther (r : Route).

(** One request with what the outside world answers while it is served:
    to [chat], to [vertex_ai_chat], and to the GET of the two other path
    operations that call the proxy. *)
Record Call : Type := {
  call_method : string;
  call_path : string;
  call_body : RawChatRequest;
  call_chat_env : ChatEnv;
  call_vertex_env : VertexEnv;
  call_get : result Response
}.

Definition app (c : Call) (w : World) : World * Served :=
  match route (call_method c) (call_path c) with
  | Full Route_chat =>
      match validate (call_body c) with
      | Some request =>
          let '(w', r) :=
            exception_handlers (call_path c) (chat request (call_chat_env c)) w in
          (w', ByChat r)
      | None => (w, ByRouter 422)
      end
  | Full Route_vertex_ai_chat =>
      match validate (call_body c) with
      | Some request =>
          let '(w', r) :=
            exception_handlers (call_path c)
              (vertex_ai_chat request (call_vertex_env c)) w in
          (w', ByVertexAIChat r)
      | None => (w, ByRouter 422)
      end
  | Full Route_health =>
      ((exception_handlers (call_path c) (health_check (call_get c)) w).1,
       ByOther Route_health)
  | Full Route_models =>
      ((exception_handlers (call_path c) (list_models (call_get c)) w).1,
       ByOther Route_models)
  | Full Route_metrics =>
      ((exception_handlers (call_path c) metrics w).1, ByOther Route_metrics)
  | Full r => (w, ByOther r)
  | Partial => (w, ByRouter 405)
  | RedirectSlashes => (w, ByRouter 307)
  | NoMatch => (w, ByRouter 404)
  end.

(** The requests of a process, served one after the other. *)
Fixpoint serve (calls : list Call) (w : World) : World * list Served :=
  match calls with
  | [] => (w, [])
  | c :: rest =>
      let '(w1, s) := app c w in
      let '(w2, ss) := serve rest w1 in
      (w2, s :: ss)
  end.

(** ** The reply of the health probe *)

Record HealthResponse : Type := {
  health_status : string;
  health_timestamp : Z;
  health_version : string;
  health_services : gmap string string
}.

(** Lines 189-206: the [services] dictionary is filled by the two checks
    and wrapped in a [HealthResponse] whose [status] is the literal
    "healthy". *)
Definition health_check_reply (outcome : result Response) (now : Z) : M HealthResponse :=
  services <- health_check outcome ;;
  ret {| health_status := "healthy";
         health_timestamp := now;
         health_version := "1.0.0";
         health_services := <["vertex_ai" := services.2]> (<["litellm" := services.1]> ∅) |}.

(** ** The background task (lines 361-371) *)

(** [len(o)]: strings, lists and dictionaries have a length. *)
Definition len (o : JSON) : result Z :=
  match o with
  | JStr s => Return (str_len s)
  | JArr items => Return (Z.of_nat (length items))
  | JObj items => Return (Z.of_nat (length items))
  | JNull | JBool _ | JNum _ => Raise (PyError "TypeError" "object has no len()")
  end.

(** The keywords of the "Chat request processed" record. *)
Record ChatLog : Type := {
  chat_log_model : string;
  user_message_length : Z;
  ai_response_length : Z;
  chat_log_processing_time : float;
  chat_log_tokens_used : JSON
}.

(** [log_chat_request], run with the arguments [add_task] was given: the
    record it hands to [logger.info], or the exception of a [len]. *)
Definition log_chat_request (t : AuditTask) : result ChatLog :=
  match len (task_ai_response t) with
  | Return n =>
      Return {| chat_log_model := task_model t;
                user_message_length := str_len (task_user_message t);
                ai_response_length := n;
                chat_log_processing_time := task_processing_time t;
                chat_log_tokens_used := task_tokens_used t |}
  | Raise e => Raise e
  end.

(** ** Views of a run, for the statements below *)

(** The URL the payload is posted to. *)
Definition completions_url (w : World) : string :=
  litellm_url (settings w) +:+ "/chat/completions".

(** The world once the [async with] block is over: the client was entered,
    the request was sent, and the client was closed. *)
Definition posted (request : ChatRequest.t) (w : World) : World :=
  set_http_client CLOSED
    (set_outbound_requests
       (outbound_requests w ++ [POST (completions_url w) (litellm_request request)])
       (set_http_client OPENED (set_http_client OPENED w))).

(** Lines 267-268, on the parsed body. *)
Definition ai_response_of (body : JSON) : result JSON :=
  match getitem body "choices" with
  | Return choices =>
      match getitem0 choices with
      | Return choice =>
          match getitem choice "message" with
          | Return msg => getitem msg "content"
          | Raise e => Raise e
          end
      | Raise e => Raise e
      end
  | Raise e => Raise e
  end.

Definition tokens_used_of (body : JSON) : result JSON :=
  match get body "usage" (JObj []) with
  | Return usage => get usage "total_tokens" JNull
  | Raise e => Raise e
  end.

(** The world after a call that went through to the [return]. *)
Definition returned (request : ChatRequest.t) (env : ChatEnv) (ai_response tokens_used : JSON)
    (w : World) : World :=
  let w1 :=
    set_LITELLM_REQUESTS
      (inc (ChatRequest.model request) "success" (LITELLM_REQUESTS w))
      (posted request w) in
  set_background_tasks
    (background_tasks w ++
       [ {| task_model := ChatRequest.model request;
            task_user_message := ChatRequest.message request;
            task_ai_response := ai_response;
            task_processing_time := PrimFloat.sub (end_time env) (start_time env);
            task_tokens_used := tokens_used |} ])
    w1.

(** The body the proxy sent, when there is one. *)
Definition upstream_body (env : ChatEnv) : option JSON :=
  match post env with
  | Return r => match json r with Return body => Some body | Raise _ => None end
  | Raise _ => None
  end.

Definition usage_field (body : JSON) : option JSON :=
  match body with
  | JObj items => dict_get "usage" items
  | _ => None
  end.

Definition total_tokens_field (body : JSON) : option JSON :=
  match usage_field body with
  | Some (JObj usage) => dict_get "total_tokens" usage
  | _ => None
  end.

(** A failure with the status of an internal error, raised by a handler. *)
Definition internal_error (s : Served) : bool :=
  match s with
  | ByChat (Raise (HTTPException status _))
  | ByVertexAIChat (Raise (HTTPException status _)) => (status =? 500) || (status =? 503)
  | _ => false
  end.

(** ** Sample inputs *)

Definition default_settings : Settings :=
  {| litellm_url := "http://litellm-service:4000";
     vertex_ai_project := "";
     vertex_ai_region := "us-central1" |}.

Definition fresh : World := startup default_settings (Return tt).

Definition hi_request : ChatRequest.t :=
  ChatRequest.mk "hi" "gpt-x" (Some 0.7%float) (Some 1000) (Some "be terse") None.

(** A reader of plain strings of decimal digits. *)
Fixpoint digits (acc : Z) (s : string) : option Z :=
  match s with
  | EmptyString => Some acc
  | String c rest =>
      let n := Z.of_nat (nat_of_ascii c) in
      if ((48 <=? n) && (n <=? 57))%bool then digits (10 * acc + (n - 48)) rest else None
  end.

Definition decimal (s : string) : option Z :=
  match s with
  | EmptyString => None
  | _ => digits 0 s
  end.

Definition answers (r : result Response) : ChatEnv :=
  {| start_time := 1.0; end_time := 3.5; utcnow := 42; post := r;
     int_of_str := decimal |}.

Definition completion_items (usage : list (string * JSON)) : list (string * JSON) :=
  ("choices", JArr [JObj [("message", JObj [("content", JStr "yo")])]]) :: usage.

Definition completion (usage : list (string * JSON)) : JSON :=
  JObj (completion_items usage).

Definition ok_200 (body : JSON) : result Response :=
  Return {| status_code := 200; text := "{...}"; json := Return body |}.

Definition boom (status : Z) : result Response :=
  Return {| status_code := status; text := "boom";
            json := Raise (PyError "JSONDecodeError" "Expecting value") |}.

(** The body [{"message": "", "temperature": null, "max_tokens": null}]. *)
Definition empty_message_body : RawChatRequest :=
  {| raw_message := Val ""; raw_model := Absent;
     raw_temperature := Null; raw_max_tokens := Null;
     raw_system_prompt := Absent; raw_conversation_id := Absent |}.

Definition temperature_body (t : float) : RawChatRequest :=
  {| raw_message := Val "hi"; raw_model := Absent;
     raw_temperature := Val t; raw_max_tokens := Absent;
     raw_system_prompt := Absent; raw_conversation_id := Absent |}.

Definition blank_prompt_request : ChatRequest.t :=
  ChatRequest.mk "hi" "gpt-x" (Some 0.7%float) (Some 1000) (Some "") None.

Definition vertex_answers (g : result GenerationResponse) : VertexEnv :=
  {| v_start_time := 1.0; v_end_time := 2.0; v_utcnow := 42;
     sdk_model := Return tt; generate := g |}.

Definition generated (text : string) : result GenerationResponse :=
  Return {| response_text := Return text |}.

Definition request_to (method path : string) (body : RawChatRequest) : Call :=
  {| call_method := method; call_path := path; call_body := body;
     call_chat_env := answers (ok_200 (completion []));
     call_vertex_env := vertex_answers (generated "yo");
     call_get := ok_200 (JObj []) |}.

(** ** Validation at the boundary *)

Example validate_defaults :
  validate {| raw_message := Val "hi"; raw_model := Absent;
              raw_temperature := Absent; raw_max_tokens := Absent;
              raw_system_prompt := Absent; raw_conversation_id := Absent |}
  = Some (ChatRequest.mk "hi" "gemini-pro" (Some 0.7%float) (Some 1000) None None).
Proof. reflexivity. Qed.

Lemma optional_checked_inv {A} (d : option A) (ok : A -> bool) (f : Field A) (r : option A) :
  optional_checked d ok f = Some r ->
  (f = Absent /\ r = d) \/ (f = Null /\ r = None) \/ (exists v, f = Val v /\ r = Some v /\ ok v = true).
Proof.
  destruct f as [| |v]; simpl.
  - intros [= <-]. by left.
  - intros [= <-]. right. by left.
  - destruct (ok v) eqn:Hok; [|done]. intros [= <-]. right. right. by exists v.
Qed.

Lemma validate_inv raw request :
  validate raw = Some request ->
  required_str (raw_message raw) = Some (ChatRequest.message request) /\
  default_str "gemini-pro" (raw_model raw) = Some (ChatRequest.model request) /\
  optional_checked (Some 0.7%float) (float_ge_le 0.0 2.0) (raw_temperature raw)
    = Some (ChatRequest.temperature request) /\
  optional_checked (Some 1000) (int_ge_le 1 4000) (raw_max_tokens raw)
    = Some (ChatRequest.max_tokens request).
Proof.
  unfold validate.
  destruct (required_str _) as [m|]; [|done].
  destruct (default_str _ _) as [mo|]; [|done].
  destruct (optional_checked _ _ (raw_temperature raw)) as [t|]; [|done].
  destruct (optional_checked _ _ (raw_max_tokens raw)) as [mt|]; [|done].
  destruct (optional_checked _ _ (raw_system_prompt raw)) as [sp|]; [|done].
  destruct (optional_checked _ _ (raw_conversation_id raw)) as [cid|]; [|done].
  by intros [= <-].
Qed.

(** C8, as stated, fails: a body whose message is the empty string and whose
    temperature and max_tokens are null passes validation, and the request
    that enters the handlers has an empty message, no temperature and no
    max_tokens. *)
Lemma validate_accepts_empty_message_and_nulls :
  exists request,
    validate empty_message_body = Some request /\
    ChatRequest.message request = "" /\
    ChatRequest.temperature request = None /\
    ChatRequest.max_tokens request = None.
Proof. eexists. by repeat split. Qed.

(** C8, amended: every request that passes validation carries the message
    string of the body (any string, the empty one included); its temperature
    is [None] or a float with [0.0 <= t <= 2.0], and is 0.7 when the body
    leaves the field out; its max_tokens is [None] or an integer with
    [1 <= n <= 4000], and is 1000 when the body leaves the field out. *)
Theorem validate_field_constraints raw request :
  validate raw = Some request ->
  raw_message raw = Val (ChatRequest.message request) /\
  match ChatRequest.temperature request with
  | Some t => PrimFloat.leb 0.0 t = true /\ PrimFloat.leb t 2.0 = true
  | None => raw_temperature raw = Null
  end /\
  (raw_temperature raw = Absent -> ChatRequest.temperature request = Some 0.7%float) /\
  match ChatRequest.max_tokens request with
  | Some n => 1 <= n <= 4000
  | None => raw_max_tokens raw = Null
  end /\
  (raw_max_tokens raw = Absent -> ChatRequest.max_tokens request = Some 1000).
Proof.
  intros (Hm & _ & Ht & Hn)%validate_inv.
  split.
  { destruct (raw_message raw); simpl in Hm; congruence. }
  apply optional_checked_inv in Ht, Hn.
  split; [|split; [|split]].
  - destruct Ht as [[_ ->]|[[? ->]|(v & _ & -> & Hok)]]; [by vm_compute|done|].
    unfold float_ge_le in Hok. by apply andb_prop in Hok.
  - intros Ha. destruct Ht as [[_ ->]|[[? _]|(v & ? & _)]]; [done|congruence..].
  - destruct Hn as [[_ ->]|[[? ->]|(v & _ & -> & Hok)]]; [lia|done|].
    unfold int_ge_le in Hok. apply andb_prop in Hok. lia.
  - intros Ha. destruct Hn as [[_ ->]|[[? _]|(v & ? & _)]]; [done|congruence..].
Qed.

Lemma validate_field_constraints_witness :
  validate (temperature_body 1.5) =
    Some (ChatRequest.mk "hi" "gemini-pro" (Some 1.5%float) (Some 1000) None None) /\
  PrimFloat.leb 1.5 2.0 = true.
Proof.
  split; [reflexivity|].
  pose proof (validate_field_constraints (temperature_body 1.5)
    (ChatRequest.mk "hi" "gemini-pro" (Some 1.5%float) (Some 1000) None None)
    eq_refl) as (_ & [_ H] & _).
  exact H.
Defined.

Example validate_rejects_out_of_range :
  validate (temperature_body 2.5) = None /\
  validate (temperature_body PrimFloat.nan) = None.
Proof. by split. Qed.

(** ** The payload sent to the proxy *)

(** C7, as stated, fails: with [system_prompt] set to the empty string the
    payload has no system message, only the user message. *)
Lemma litellm_request_blank_system_prompt :
  ChatRequest.system_prompt blank_prompt_request = Some "" /\
  lr_messages (litellm_request blank_prompt_request)
    = [ {| role := "user"; content := "hi" |} ].
Proof. by split. Qed.

(** C7, amended: the payload's messages are a leading system message, present
    exactly when [system_prompt] is set to a non-empty string and then
    carrying it, followed by a single user message carrying the request's
    message; model, temperature and max_tokens are passed through as they
    are.  For message "hi" and system prompt "be terse" the messages are the
    system message "be terse", then the user message "hi". *)
Theorem litellm_request_translation request :
  lr_messages (litellm_request request)
    = match ChatRequest.system_prompt request with
      | Some (String c p) =>
          [ {| role := "system"; content := String c p |};
            {| role := "user"; content := ChatRequest.message request |} ]
      | Some EmptyString | None =>
          [ {| role := "user"; content := ChatRequest.message request |} ]
      end /\
  lr_model (litellm_request request) = ChatRequest.model request /\
  lr_temperature (litellm_request request) = ChatRequest.temperature request /\
  lr_max_tokens (litellm_request request) = ChatRequest.max_tokens request /\
  lr_messages (litellm_request hi_request)
    = [ {| role := "system"; content := "be terse" |};
        {| role := "user"; content := "hi" |} ].
Proof.
  repeat split.
  unfold litellm_request; simpl.
  by destruct (ChatRequest.system_prompt request) as [[|c p]|].
Qed.

(** ** Counters *)

Lemma inc_same (model status : string) (c : gmap (string * string) nat) :
  inc model status c !!! (model, status) = S (c !!! (model, status)).
Proof. unfold inc. by rewrite lookup_total_insert_eq. Qed.

Lemma inc_other (model status : string) (k : string * string) (c : gmap (string * string) nat) :
  k ≠ (model, status) -> inc model status c !!! k = c !!! k.
Proof. intros Hk. unfold inc. by rewrite lookup_total_insert_ne. Qed.

(** ** Running [chat] *)

Ltac run_chat :=
  unfold chat, try_except, chat_body, async_with_http_client, bind, aenter,
    client_post, lift, ret, raise; simpl.

(** The upstream call times out. *)
Lemma chat_timeout request env w msg :
  http_client w = UNOPENED ->
  post env = Raise (TimeoutException msg) ->
  chat request env w
  = (set_LITELLM_REQUESTS
       (inc (ChatRequest.model request) "timeout" (LITELLM_REQUESTS w))
       (posted request w),
     Raise (HTTPException 504 "Request timeout")).
Proof. intros Hc Hp. run_chat. rewrite Hc; simpl. by rewrite Hp. Qed.

(** The connection fails. *)
Lemma chat_request_error request env w msg :
  http_client w = UNOPENED ->
  post env = Raise (RequestError msg) ->
  chat request env w
  = (set_LITELLM_REQUESTS
       (inc (ChatRequest.model request) "error" (LITELLM_REQUESTS w))
       (posted request w),
     Raise (HTTPException 502 ("Connection error: " +:+ msg))).
Proof. intros Hc Hp. run_chat. rewrite Hc; simpl. by rewrite Hp. Qed.

(** The upstream answers with a status other than 200: the [HTTPException]
    raised inside the [try] (lines 256-259) is an [Exception], so the last
    [except] clause catches it, counts a second error, logs it, and raises
    a 500 in its place. *)
Lemma chat_non_200 request env w r :
  http_client w = UNOPENED ->
  post env = Return r ->
  status_code r ≠ 200 ->
  chat request env w
  = (set_error_log
       (error_log w ++
          [ {| log_event := "Chat request failed";
               log_error := str (HTTPException (status_code r)
                                   ("LiteLLM error: " +:+ text r));
               log_extra := Some ("model", ChatRequest.model request) |} ])
       (set_LITELLM_REQUESTS
          (inc (ChatRequest.model request) "error"
             (inc (ChatRequest.model request) "error" (LITELLM_REQUESTS w)))
          (posted request w)),
     Raise (HTTPException 500 "Internal server error")).
Proof.
  intros Hc Hp Hs. run_chat. rewrite Hc; simpl. rewrite Hp.
  destruct (status_code r =? 200) eqn:E; [lia|]. reflexivity.
Qed.

(** The shared client was closed by an earlier [async with]: entering it
    again raises, nothing is sent, and the caller gets a 500. *)
Lemma chat_client_closed request env w :
  http_client w = CLOSED ->
  chat request env w
  = (set_error_log
       (error_log w ++
          [ {| log_event := "Chat request failed";
               log_error := "Cannot reopen a client instance, once it has been closed.";
               log_extra := Some ("model", ChatRequest.model request) |} ])
       (set_LITELLM_REQUESTS
          (inc (ChatRequest.model request) "error" (LITELLM_REQUESTS w)) w),
     Raise (HTTPException 500 "Internal server error")).
Proof. intros Hc. run_chat. by rewrite Hc. Qed.

(** Every [except] clause ends in a [raise]. *)
Lemma chat_except_raises request e w :
  exists w' e', chat_except request e w = (w', Raise e').
Proof. destruct e; eauto. Qed.

(** When [chat] returns, this is how it got there. *)
Lemma chat_return_inv request env w w' resp :
  chat request env w = (w', Return resp) ->
  exists r body ai_response tokens_used,
    http_client w = UNOPENED /\
    post env = Return r /\
    status_code r = 200 /\
    json r = Return body /\
    ai_response_of body = Return ai_response /\
    tokens_used_of body = Return tokens_used /\
    ChatResponse_new (int_of_str env) ai_response (ChatRequest.model request)
      tokens_used (ChatRequest.conversation_id request) (utcnow env)
      (PrimFloat.sub (end_time env) (start_time env)) = Return resp /\
    w' = returned request env ai_response tokens_used w.
Proof.
  unfold chat, try_except.
  destruct (chat_body request env w) as [w1 [a|e]] eqn:Hbody; last first.
  { destruct (chat_except_raises request e w1) as (? & ? & ->). by intros [= _ ?]. }
  intros [= -> ->]. revert Hbody.
  unfold chat_body, async_with_http_client, bind, aenter, client_post, lift, ret, raise,
    ai_response_of, tokens_used_of.
  destruct (http_client w) eqn:Hc; simpl; [|done..].
  destruct (post env) as [r|]; simpl; [|done].
  destruct (status_code r =? 200) eqn:Hs; simpl; [|done].
  destruct (json r) as [body|] eqn:Hj; simpl; [|done].
  destruct (getitem body "choices") as [choices|] eqn:H1; [|done].
  destruct (getitem0 choices) as [choice|] eqn:H2; [|done].
  destruct (getitem choice "message") as [msg|] eqn:H3; [|done].
  destruct (getitem msg "content") as [ai|] eqn:H4; [|done].
  destruct (get body "usage" (JObj [])) as [usage|] eqn:H5; [|done].
  destruct (get usage "total_tokens" JNull) as [tokens|] eqn:H6; [|done].
  simpl. intros [= <- Hnew].
  exists r, body, ai, tokens.
  rewrite H1, H2, H3, H5. repeat split; try done. lia.
Qed.

(** And the other way round: a 200 whose body has the completion in place
    makes [chat] return. *)
Lemma chat_returns request env w r body ai_response tokens_used resp :
  http_client w = UNOPENED ->
  post env = Return r ->
  status_code r = 200 ->
  json r = Return body ->
  ai_response_of body = Return ai_response ->
  tokens_used_of body = Return tokens_used ->
  ChatResponse_new (int_of_str env) ai_response (ChatRequest.model request)
    tokens_used (ChatRequest.conversation_id request) (utcnow env)
    (PrimFloat.sub (end_time env) (start_time env)) = Return resp ->
  chat request env w = (returned request env ai_response tokens_used w, Return resp).
Proof.
  intros Hc Hp Hs Hj Hai Htok Hnew. run_chat.
  rewrite Hc; simpl. rewrite Hp, Hs; simpl. rewrite Hj; simpl.
  revert Hai Htok. unfold ai_response_of, tokens_used_of.
  destruct (getitem body "choices") as [choices|]; [|done].
  destruct (getitem0 choices) as [choice|]; [|done].
  destruct (getitem choice "message") as [msg|]; [|done].
  intros ->.
  destruct (get body "usage" (JObj [])) as [usage|]; [|done].
  intros ->. simpl. by rewrite Hnew.
Qed.

(** Case analysis along the control flow of a handler. *)
Ltac step_handler :=
  match goal with
  | |- context [match http_client ?w with _ => _ end] => destruct (http_client w) eqn:?
  | |- context [match post ?env with _ => _ end] => destruct (post env) as [?|[]] eqn:?
  | |- context [if negb (status_code ?r =? 200) then _ else _] =>
      destruct (status_code r =? 200) eqn:?
  | |- context [match json ?r with _ => _ end] => destruct (json r) as [?|[]] eqn:?
  | |- context [match getitem ?o ?k with _ => _ end] => destruct (getitem o k) as [?|[]] eqn:?
  | |- context [match getitem0 ?o with _ => _ end] => destruct (getitem0 o) as [?|[]] eqn:?
  | |- context [match get ?o ?k ?d with _ => _ end] => destruct (get o k d) as [?|[]] eqn:?
  | |- context [match ChatResponse_new ?o ?a ?b ?c ?d ?e ?f with _ => _ end] =>
      destruct (ChatResponse_new o a b c d e f) as [?|[]] eqn:?
  | |- context [match sdk_model ?env with _ => _ end] => destruct (sdk_model env) as [?|?] eqn:?
  | |- context [match generate ?env with _ => _ end] => destruct (generate env) as [?|?] eqn:?
  | |- context [match response_text ?r with _ => _ end] =>
      destruct (response_text r) as [?|?] eqn:?
  | |- context [if negb (vertex_ai_available ?w) then _ else _] =>
      destruct (vertex_ai_available w) eqn:?
  end; simpl.

(** What [chat] leaves alone, and what it does to the shared client: the
    [async with] block closes it on every path that entered it. *)
Lemma chat_frame request env w :
  let w' := (chat request env w).1 in
  settings w' = settings w /\
  vertex_ai_available w' = vertex_ai_available w /\
  VERTEX_AI_REQUESTS w' = VERTEX_AI_REQUESTS w /\
  sdk_calls w' = sdk_calls w /\
  http_client w' = match http_client w with OPENED => OPENED | _ => CLOSED end.
Proof.
  run_chat. unfold chat_except, bind. repeat step_handler; by repeat split.
Qed.

(** ** C1: a non-200 answer of the proxy *)

(** C1 (fails on the code): when the proxy answers with a status other than
    200, [chat] does not fail with that status and body.  The exception that
    carries them is caught by the handler's own last [except] clause, and
    the caller gets status 500 with the fixed detail "Internal server error",
    whatever the upstream status and body were. *)
Theorem chat_non_200_raises_internal_server_error request env w r :
  http_client w = UNOPENED ->
  post env = Return r ->
  status_code r ≠ 200 ->
  (chat request env w).2 = Raise (HTTPException 500 "Internal server error").
Proof. intros Hc Hp Hs. by rewrite (chat_non_200 _ _ _ r). Qed.

Lemma chat_non_200_raises_internal_server_error_witness :
  post (answers (boom 404)) = boom 404 /\
  (chat hi_request (answers (boom 404)) fresh).2
  = Raise (HTTPException 500 "Internal server error").
Proof.
  split; [reflexivity|].
  apply (chat_non_200_raises_internal_server_error hi_request (answers (boom 404)) fresh
           {| status_code := 404; text := "boom";
              json := Raise (PyError "JSONDecodeError" "Expecting value") |});
    [reflexivity | reflexivity | simpl; lia].
Defined.

(** ** C2: one increment per call *)

(** C2 (fails on the code): when the proxy answers with a status other than
    200, the counter of [(model, "error")] goes up by two in one call, once
    at line 255 and once more in the last [except] clause at line 296. *)
Theorem chat_non_200_counts_error_twice request env w r :
  http_client w = UNOPENED ->
  post env = Return r ->
  status_code r ≠ 200 ->
  LITELLM_REQUESTS (chat request env w).1 !!! (ChatRequest.model request, "error")
  = S (S (LITELLM_REQUESTS w !!! (ChatRequest.model request, "error"))).
Proof.
  intros Hc Hp Hs. rewrite (chat_non_200 _ _ _ r) by done. simpl.
  by rewrite !inc_same.
Qed.

Lemma chat_non_200_counts_error_twice_witness :
  LITELLM_REQUESTS fresh !!! ("gpt-x", "error") = 0%nat /\
  LITELLM_REQUESTS (chat hi_request (answers (boom 500)) fresh).1 !!! ("gpt-x", "error")
  = 2%nat.
Proof.
  split; [reflexivity|].
  apply (chat_non_200_counts_error_twice hi_request (answers (boom 500)) fresh
           {| status_code := 500; text := "boom";
              json := Raise (PyError "JSONDecodeError" "Expecting value") |});
    [reflexivity | reflexivity | simpl; lia].
Defined.

(** The same happens on a 200 whose body has no completion in it: "success"
    is counted at line 262, then "error" when line 267 raises. *)
Example chat_200_without_choices_counts_twice :
  let w' := (chat hi_request (answers (ok_200 (JObj []))) fresh).1 in
  LITELLM_REQUESTS w' !!! ("gpt-x", "success") = 1%nat /\
  LITELLM_REQUESTS w' !!! ("gpt-x", "error") = 1%nat.
Proof. by vm_compute. Qed.

(** ** C3: the shared client *)

(** C3 (fails on the code): [chat] wraps the shared client in [async with],
    so the first call that enters the block closes it, whether the call
    succeeded or failed.  From then on every call fails with a 500 before
    anything is sent. *)
Theorem chat_closes_shared_client request env w request' env' :
  http_client w = UNOPENED ->
  let w1 := (chat request env w).1 in
  http_client w1 = CLOSED /\
  (chat request' env' w1).2 = Raise (HTTPException 500 "Internal server error") /\
  outbound_requests (chat request' env' w1).1 = outbound_requests w1.
Proof.
  intros Hc w1.
  assert (Hclosed : http_client w1 = CLOSED).
  { destruct (chat_frame request env w) as (_ & _ & _ & _ & H).
    fold w1 in H. by rewrite H, Hc. }
  split; [done|]. by rewrite (chat_client_closed _ _ _ Hclosed).
Qed.

Lemma chat_closes_shared_client_witness :
  let w1 := (chat hi_request (answers (ok_200 (completion []))) fresh).1 in
  (exists resp, (chat hi_request (answers (ok_200 (completion []))) fresh).2 = Return resp) /\
  http_client w1 = CLOSED /\
  (chat hi_request (answers (ok_200 (completion []))) w1).2
  = Raise (HTTPException 500 "Internal server error") /\
  outbound_requests (chat hi_request (answers (ok_200 (completion []))) w1).1
  = outbound_requests w1.
Proof.
  split; [eexists; by vm_compute|].
  apply (chat_closes_shared_client hi_request (answers (ok_200 (completion []))) fresh
           hi_request (answers (ok_200 (completion [])))).
  reflexivity.
Defined.

(** ** C6: timeouts *)

(** C6: when the call to the proxy times out, [chat] fails with status 504
    "Request timeout"; the counter of [(model, "timeout")] goes up by exactly
    one and no other counter moves; no background task is added and nothing
    is logged; the request was posted once and is not sent again. *)
Theorem chat_timeout_outcome request env w msg :
  http_client w = UNOPENED ->
  post env = Raise (TimeoutException msg) ->
  let w' := (chat request env w).1 in
  (chat request env w).2 = Raise (HTTPException 504 "Request timeout") /\
  LITELLM_REQUESTS w' !!! (ChatRequest.model request, "timeout")
  = S (LITELLM_REQUESTS w !!! (ChatRequest.model request, "timeout")) /\
  (forall k, k ≠ (ChatRequest.model request, "timeout") ->
             LITELLM_REQUESTS w' !!! k = LITELLM_REQUESTS w !!! k) /\
  VERTEX_AI_REQUESTS w' = VERTEX_AI_REQUESTS w /\
  background_tasks w' = background_tasks w /\
  error_log w' = error_log w /\
  outbound_requests w'
  = (outbound_requests w ++ [POST (completions_url w) (litellm_request request)])%list.
Proof.
  intros Hc Hp w'. subst w'. rewrite (chat_timeout _ _ _ msg) by done. simpl.
  repeat split; [apply inc_same|]. intros k Hk. by apply inc_other.
Qed.

Lemma chat_timeout_outcome_witness :
  let env := answers (Raise (TimeoutException "timed out")) in
  (chat hi_request env fresh).2 = Raise (HTTPException 504 "Request timeout") /\
  LITELLM_REQUESTS (chat hi_request env fresh).1 !!! ("gpt-x", "timeout") = 1%nat /\
  background_tasks (chat hi_request env fresh).1 = [].
Proof.
  intros env.
  destruct (chat_timeout_outcome hi_request env fresh "timed out" eq_refl eq_refl)
    as (H1 & H2 & _ & _ & H3 & _ & _).
  split; [exact H1|]. split; [exact H2|exact H3].
Defined.

(** ** C9: conversation id and token count of a successful call *)

(** C9, as stated, fails: the body carries a usage field, an object without
    [total_tokens]; the call succeeds and [tokens_used] is not populated. *)
Lemma chat_usage_field_without_total_tokens :
  let body := completion [("usage", JObj [])] in
  usage_field body = Some (JObj []) /\
  exists resp,
    (chat hi_request (answers (ok_200 body)) fresh).2 = Return resp /\
    ChatResponse.tokens_used resp = None.
Proof. split; [reflexivity|]. eexists. by vm_compute. Qed.

Lemma tokens_used_of_spec body tokens :
  tokens_used_of body = Return tokens ->
  exists items, body = JObj items /\
    match total_tokens_field body with
    | Some v => tokens = v
    | None => tokens = JNull
    end.
Proof.
  unfold tokens_used_of, total_tokens_field, usage_field, get.
  destruct body as [| | | | |items]; try done.
  intros H. exists items. split; [done|]. revert H.
  destruct (dict_get "usage" items) as [usage|]; simpl.
  - destruct usage as [| | | | |u]; try done.
    destruct (dict_get "total_tokens" u); by intros [= <-].
  - by intros [= <-].
Qed.

Lemma tokens_used_of_no_usage items :
  dict_get "usage" items = None -> tokens_used_of (JObj items) = Return JNull.
Proof. intros H. unfold tokens_used_of, get. by rewrite H. Qed.

Lemma ChatResponse_new_inv of_str ai model tokens cid ts pt resp :
  ChatResponse_new of_str ai model tokens cid ts pt = Return resp ->
  exists s toks,
    ai = JStr s /\
    optional_int of_str tokens = Some toks /\
    resp = ChatResponse.mk s model toks cid ts pt.
Proof.
  unfold ChatResponse_new.
  destruct ai as [| | |s| |]; try done.
  destruct (optional_int of_str tokens) as [toks|]; [|done].
  intros [= <-]. by exists s, toks.
Qed.

Lemma optional_int_is_Some of_str v toks :
  optional_int of_str v = Some toks -> is_Some toks <-> v ≠ JNull.
Proof.
  destruct v as [| | |s| |]; simpl.
  - intros [= <-]. split; [by intros [? ?]|done].
  - intros [= <-]. split; [done|by eauto].
  - intros [= <-]. split; [done|by eauto].
  - destruct (of_str s); [|done]. intros [= <-]. split; [done|by eauto].
  - done.
  - done.
Qed.

(** C9, amended: for every successful call of [chat], [conversation_id] in
    the response equals the request's, and [tokens_used] is populated exactly
    when the usage object of the upstream body carries a [total_tokens] that
    is not null, an integer there being handed on as it is; with no usage
    field the call succeeds all the same and [tokens_used] is [None]. *)
Theorem chat_echo_and_tokens_used :
  (forall request env w w' resp,
     chat request env w = (w', Return resp) ->
     ChatResponse.conversation_id resp = ChatRequest.conversation_id request /\
     exists body,
       upstream_body env = Some body /\
       (is_Some (ChatResponse.tokens_used resp)
        <-> exists v, total_tokens_field body = Some v /\ v ≠ JNull) /\
       (forall n, total_tokens_field body = Some (JNum n) ->
                  ChatResponse.tokens_used resp = Some n) /\
       (usage_field body = None -> ChatResponse.tokens_used resp = None)) /\
  (forall request env w r items s,
     http_client w = UNOPENED ->
     post env = Return r ->
     status_code r = 200 ->
     json r = Return (JObj items) ->
     ai_response_of (JObj items) = Return (JStr s) ->
     usage_field (JObj items) = None ->
     exists w' resp,
       chat request env w = (w', Return resp) /\
       ChatResponse.response resp = s /\
       ChatResponse.tokens_used resp = None).
Proof.
  split.
  - intros request env w w' resp
      (r & body & ai & tokens & _ & Hp & _ & Hj & _ & Htok & Hnew & _)%chat_return_inv.
    apply ChatResponse_new_inv in Hnew as (s & toks & -> & Hconv & ->). simpl.
    split; [done|]. exists body. split.
    { unfold upstream_body. by rewrite Hp, Hj. }
    apply tokens_used_of_spec in Htok as (items & -> & Htok).
    pose proof (optional_int_is_Some _ _ _ Hconv) as Hsome.
    split; [|split].
    + rewrite Hsome. destruct (total_tokens_field (JObj items)) as [v|]; subst tokens.
      * split; [by eauto|]. by intros (v' & [= <-] & Hv).
      * split; [done|]. by intros (v & ? & _).
    + intros n Hn. rewrite Hn in Htok. subst tokens. simpl in Hconv. congruence.
    + intros Hu. revert Htok. unfold total_tokens_field. rewrite Hu. intros ->.
      simpl in Hconv. congruence.
  - intros request env w r items s Hc Hp Hs Hj Hai Hu.
    eexists _, _. split.
    + eapply chat_returns; try done.
      * by apply tokens_used_of_no_usage.
      * reflexivity.
    + done.
Qed.

Lemma chat_echo_and_tokens_used_witness :
  let env := answers (ok_200 (completion [("usage", JObj [("total_tokens", JNum 12)])])) in
  (exists w' resp,
     chat hi_request env fresh = (w', Return resp) /\
     ChatResponse.conversation_id resp = None /\
     ChatResponse.tokens_used resp = Some 12) /\
  (exists w' resp,
     chat hi_request (answers (ok_200 (completion []))) fresh = (w', Return resp) /\
     ChatResponse.response resp = "yo" /\
     ChatResponse.tokens_used resp = None).
Proof.
  intros env. destruct chat_echo_and_tokens_used as [Hecho Hnousage]. split.
  - destruct (chat hi_request env fresh) as [w' [resp|e]] eqn:Hrun;
      [|by vm_compute in Hrun].
    exists w', resp. split; [done|].
    destruct (Hecho hi_request env fresh w' resp Hrun) as (Hcid & body & Hb & _ & Htok & _).
    split; [exact Hcid|]. apply Htok.
    vm_compute in Hb. injection Hb as <-. reflexivity.
  - apply (Hnousage hi_request (answers (ok_200 (completion []))) fresh
             {| status_code := 200; text := "{...}"; json := Return (completion []) |}
             (completion_items []) "yo"); reflexivity.
Defined.

(** ** Running [vertex_ai_chat] *)

Ltac run_vertex_ai_chat :=
  unfold vertex_ai_chat, try_except, vertex_ai_chat_body, vertex_ai_chat_except,
    generate_content, bind, lift, ret, raise; simpl.

(** The guard of lines 306-307. *)
Lemma vertex_ai_chat_guard request env w :
  vertex_ai_available w = false ->
  vertex_ai_chat request env w = (w, Raise (HTTPException 503 "Vertex AI not available")).
Proof. intros H. unfold vertex_ai_chat. by rewrite H. Qed.

Lemma vertex_ai_chat_frame request env w :
  let w' := (vertex_ai_chat request env w).1 in
  settings w' = settings w /\
  vertex_ai_available w' = vertex_ai_available w /\
  http_client w' = http_client w /\
  LITELLM_REQUESTS w' = LITELLM_REQUESTS w /\
  outbound_requests w' = outbound_requests w.
Proof. run_vertex_ai_chat. repeat step_handler; by repeat split. Qed.

Lemma vertex_ai_chat_return_inv request env w w' resp :
  vertex_ai_chat request env w = (w', Return resp) ->
  exists text,
    resp = ChatResponse.mk text (ChatRequest.model request) None
             (ChatRequest.conversation_id request) (v_utcnow env)
             (PrimFloat.sub (v_end_time env) (v_start_time env)).
Proof.
  run_vertex_ai_chat. repeat step_handler; try done.
  intros [= _ <-]. eauto.
Qed.

(** ** C10: the model named in the response *)

(** C10: when [chat] or [vertex_ai_chat] returns a response, its [model] is
    the request's [model]; the response of [vertex_ai_chat] has no
    [tokens_used]. *)
Theorem response_model_is_request_model :
  (forall request env w w' resp,
     chat request env w = (w', Return resp) ->
     ChatResponse.model resp = ChatRequest.model request) /\
  (forall request env w w' resp,
     vertex_ai_chat request env w = (w', Return resp) ->
     ChatResponse.model resp = ChatRequest.model request /\
     ChatResponse.tokens_used resp = None).
Proof.
  split.
  - intros request env w w' resp
      (r & body & ai & tokens & _ & _ & _ & _ & _ & _ & Hnew & _)%chat_return_inv.
    by apply ChatResponse_new_inv in Hnew as (s & toks & _ & _ & ->).
  - by intros request env w w' resp [text ->]%vertex_ai_chat_return_inv.
Qed.

Lemma response_model_is_request_model_witness :
  (exists w' resp,
     chat hi_request (answers (ok_200 (completion []))) fresh = (w', Return resp) /\
     ChatResponse.model resp = "gpt-x") /\
  (exists w' resp,
     vertex_ai_chat hi_request (vertex_answers (generated "yo")) fresh = (w', Return resp) /\
     ChatResponse.model resp = "gpt-x" /\
     ChatResponse.tokens_used resp = None).
Proof.
  destruct response_model_is_request_model as [Hchat Hvertex]. split.
  - destruct (chat hi_request (answers (ok_200 (completion []))) fresh)
      as [w' [resp|e]] eqn:Hrun; [|by vm_compute in Hrun].
    exists w', resp. split; [done|].
    exact (Hchat hi_request _ fresh w' resp Hrun).
  - destruct (vertex_ai_chat hi_request (vertex_answers (generated "yo")) fresh)
      as [w' [resp|e]] eqn:Hrun; [|by vm_compute in Hrun].
    exists w', resp. split; [done|].
    exact (Hvertex hi_request _ fresh w' resp Hrun).
Defined.

(** ** C5: the managed-model client failed to initialise *)

(** The two chat handlers raise nothing but [HTTPException]s, so the
    exception handlers pass their outcome on as it is. *)
Lemma chat_raises_HTTPException request env w e :
  (chat request env w).2 = Raise e -> exists status detail, e = HTTPException status detail.
Proof.
  unfold chat, try_except.
  destruct (chat_body request env w) as [w1 [a|e1]]; [done|].
  destruct e1; simpl; intros [= <-]; eauto.
Qed.

Lemma vertex_ai_chat_raises_HTTPException request env w e :
  (vertex_ai_chat request env w).2 = Raise e ->
  exists status detail, e = HTTPException status detail.
Proof.
  run_vertex_ai_chat. repeat step_handler; intros [= <-]; eauto.
Qed.

Ltac run_exception_handlers :=
  unfold exception_handlers, try_except, http_exception_handler,
    general_exception_handler, JSONResponse_of_ErrorResponse, logger_error, modify,
    bind, raise.

(** The exception handlers write to the log only, and pass on what a path
    operation returns. *)
Lemma exception_handlers_frame {A} path (handler : M A) w :
  let w1 := (handler w).1 in
  let w2 := (exception_handlers path handler w).1 in
  settings w2 = settings w1 /\
  http_client w2 = http_client w1 /\
  vertex_ai_available w2 = vertex_ai_available w1 /\
  LITELLM_REQUESTS w2 = LITELLM_REQUESTS w1 /\
  VERTEX_AI_REQUESTS w2 = VERTEX_AI_REQUESTS w1 /\
  background_tasks w2 = background_tasks w1 /\
  outbound_requests w2 = outbound_requests w1 /\
  sdk_calls w2 = sdk_calls w1 /\
  (forall a, (handler w).2 = Return a -> exception_handlers path handler w = handler w).
Proof.
  run_exception_handlers.
  destruct (handler w) as [w' [a|[]]]; simpl; by repeat split.
Qed.

Lemma exception_handlers_vertex_ai_available {A} path (handler : M A) w :
  vertex_ai_available (exception_handlers path handler w).1
  = vertex_ai_available (handler w).1.
Proof. by destruct (exception_handlers_frame path handler w) as (_ & _ & H & _). Qed.

Lemma health_check_vertex_ai_available outcome w :
  vertex_ai_available (health_check outcome w).1 = vertex_ai_available w.
Proof.
  unfold health_check, try_except, async_with_http_client, bind, aenter, client_get, ret.
  destruct (http_client w); simpl; try done. by destruct outcome.
Qed.

Lemma list_models_vertex_ai_available outcome w :
  vertex_ai_available (list_models outcome w).1 = vertex_ai_available w.
Proof.
  unfold list_models, try_except, async_with_http_client, bind, aenter, client_get,
    lift, raise.
  destruct (http_client w); simpl; try done.
  destruct outcome as [r|]; simpl; [|done].
  destruct (status_code r =? 200); simpl; [|done]. by destruct (json r).
Qed.

(** No path operation writes [vertex_ai_available]. *)
Lemma app_vertex_ai_available c w :
  vertex_ai_available (app c w).1 = vertex_ai_available w.
Proof.
  unfold app.
  destruct (route (call_method c) (call_path c)) as [[]| | |]; try done; simpl.
  - rewrite exception_handlers_vertex_ai_available. apply health_check_vertex_ai_available.
  - destruct (validate (call_body c)) as [request|]; [|done].
    pose proof (exception_handlers_vertex_ai_available (call_path c)
                  (chat request (call_chat_env c)) w) as H.
    destruct (chat_frame request (call_chat_env c) w) as (_ & H' & _).
    destruct (exception_handlers _ _ w). simpl in *. congruence.
  - destruct (validate (call_body c)) as [request|]; [|done].
    pose proof (exception_handlers_vertex_ai_available (call_path c)
                  (vertex_ai_chat request (call_vertex_env c)) w) as H.
    destruct (vertex_ai_chat_frame request (call_vertex_env c) w) as (_ & H' & _).
    destruct (exception_handlers _ _ w). simpl in *. congruence.
  - rewrite exception_handlers_vertex_ai_available. apply list_models_vertex_ai_available.
Qed.

Lemma serve_vertex_ai_available calls w :
  vertex_ai_available (serve calls w).1 = vertex_ai_available w.
Proof.
  revert w. induction calls as [|c rest IH]; intros w; [done|]. simpl.
  pose proof (app_vertex_ai_available c w) as Happ.
  destruct (app c w) as [w1 s]. simpl in Happ.
  specialize (IH w1). destruct (serve rest w1) as [w2 ss]. simpl in *. congruence.
Qed.

(** C5: if the Vertex AI client failed to initialise at process start, then
    after any requests the process has served, every call of
    [vertex_ai_chat] fails at once with status 503 "Vertex AI not available"
    and leaves the process state as it was: no SDK call is made, nothing is
    handed to the HTTP client, no counter moves.  The failure is an internal
    error raised by the handler itself. *)
Theorem vertex_ai_chat_unavailable s e calls request env :
  let w := (serve calls (startup s (Raise e))).1 in
  vertex_ai_chat request env w = (w, Raise (HTTPException 503 "Vertex AI not available")) /\
  internal_error (ByVertexAIChat (vertex_ai_chat request env w).2) = true /\
  sdk_calls (vertex_ai_chat request env w).1 = sdk_calls w /\
  outbound_requests (vertex_ai_chat request env w).1 = outbound_requests w.
Proof.
  intros w.
  assert (H : vertex_ai_chat request env w
              = (w, Raise (HTTPException 503 "Vertex AI not available"))).
  { apply vertex_ai_chat_guard. unfold w. by rewrite serve_vertex_ai_available. }
  by rewrite H.
Qed.

(** ** C4: which handler serves a request *)

Example route_examples :
  route "POST" "/api/v1/chat" = Full Route_chat /\
  route "POST" "/api/v1/vertex-ai/chat" = Full Route_vertex_ai_chat /\
  route "GET" "/api/v1/chat" = Partial /\
  route "POST" "/api/v1/chat//" = RedirectSlashes /\
  route "HEAD" "/health" = Partial /\
  route "HEAD" "/docs" = Full Route_docs /\
  route "GET" "/" = NoMatch.
Proof. by vm_compute. Qed.

















(** ** The shared client over the life of the process *)

Ltac run_client_handler :=
  unfold health_check, list_models, try_except, async_with_http_client, bind, aenter,
    client_get, client_post, lift, ret, raise, logger_error, modify; simpl.

Lemma exception_handlers_client {A} path (handler : M A) w :
  http_client (exception_handlers path handler w).1 = http_client (handler w).1 /\
  outbound_requests (exception_handlers path handler w).1 = outbound_requests (handler w).1.
Proof.
  destruct (exception_handlers_frame path handler w) as (_ & H1 & _ & _ & _ & _ & H2 & _).
  by split.
Qed.

(** A handler that goes through [async with http_client] either finds the
    client unopened, sends one request and leaves it closed, or finds it
    closed and sends nothing. *)
Definition uses_client_once {A} (handler : M A) : Prop :=
  forall w,
    (http_client w = UNOPENED ->
     http_client (handler w).1 = CLOSED /\
     exists x, outbound_requests (handler w).1 = (outbound_requests w ++ [x])%list) /\
    (http_client w = CLOSED ->
     http_client (handler w).1 = CLOSED /\
     outbound_requests (handler w).1 = outbound_requests w).

Lemma chat_uses_client_once request env : uses_client_once (chat request env).
Proof.
  intros w. split; intros Hc.
  - run_chat. unfold chat_except, bind. rewrite Hc. simpl.
    repeat step_handler; eauto.
  - rewrite (chat_client_closed _ _ _ Hc). by simpl.
Qed.

Lemma health_check_uses_client_once outcome : uses_client_once (health_check outcome).
Proof.
  intros w. split; intros Hc; run_client_handler; rewrite Hc; simpl; [|done].
  destruct outcome as [r|]; simpl; eauto.
Qed.

Lemma list_models_uses_client_once outcome : uses_client_once (list_models outcome).
Proof.
  intros w. split; intros Hc; run_client_handler; rewrite Hc; simpl; [|done].
  destruct outcome as [r|]; simpl; [|by eauto].
  destruct (status_code r =? 200); simpl; [|by eauto].
  destruct (json r); simpl; eauto.
Qed.

(** What one request does to the shared client. *)
Lemma app_client c w :
  (http_client w = CLOSED ->
   http_client (app c w).1 = CLOSED /\
   outbound_requests (app c w).1 = outbound_requests w) /\
  (http_client w = UNOPENED ->
   (http_client (app c w).1 = UNOPENED /\
    outbound_requests (app c w).1 = outbound_requests w) \/
   (http_client (app c w).1 = CLOSED /\
    exists x, outbound_requests (app c w).1 = (outbound_requests w ++ [x])%list)).
Proof.
  unfold app.
  destruct (route (call_method c) (call_path c)) as [[]| | |]; simpl;
    try (split; intros Hc; by eauto).
  - destruct (exception_handlers_client (call_path c) (health_check (call_get c)) w)
      as [-> ->].
    destruct (health_check_uses_client_once (call_get c) w) as [Hu Hcl].
    split; intros Hc; eauto.
  - destruct (validate (call_body c)) as [request|]; [|split; intros Hc; by eauto].
    pose proof (exception_handlers_client (call_path c)
                  (chat request (call_chat_env c)) w) as [H1 H2].
    destruct (chat_uses_client_once request (call_chat_env c) w) as [Hu Hcl].
    destruct (exception_handlers _ _ w) as [w' r]. simpl in *. rewrite H1, H2.
    split; intros Hc; eauto.
  - destruct (validate (call_body c)) as [request|]; [|split; intros Hc; by eauto].
    pose proof (exception_handlers_client (call_path c)
                  (vertex_ai_chat request (call_vertex_env c)) w) as [H1 H2].
    destruct (vertex_ai_chat_frame request (call_vertex_env c) w)
      as (_ & _ & H3 & _ & H4).
    destruct (exception_handlers _ _ w) as [w' r]. simpl in *.
    rewrite H1, H2, H3, H4. split; intros Hc; eauto.
  - destruct (exception_handlers_client (call_path c) (list_models (call_get c)) w)
      as [-> ->].
    destruct (list_models_uses_client_once (call_get c) w) as [Hu Hcl].
    split; intros Hc; eauto.
Qed.

Lemma serve_client_closed calls w :
  http_client w = CLOSED ->
  http_client (serve calls w).1 = CLOSED /\
  outbound_requests (serve calls w).1 = outbound_requests w.
Proof.
  revert w. induction calls as [|c rest IH]; intros w Hc; [done|]. simpl.
  destruct (app_client c w) as [Happ _]. destruct (Happ Hc) as [H1 H2].
  destruct (app c w) as [w1 s]. simpl in *.
  destruct (IH w1 H1) as [H3 H4].
  destruct (serve rest w1) as [w2 ss]. simpl in *. split; congruence.
Qed.

(** X1: once the shared client is closed it stays closed, whatever requests
    the process serves next: nothing more is handed to it, and every later
    call of [chat] fails with status 500 "Internal server error". *)
Theorem closed_client_stays_closed calls w request env :
  http_client w = CLOSED ->
  let w' := (serve calls w).1 in
  http_client w' = CLOSED /\
  outbound_requests w' = outbound_requests w /\
  (chat request env w').2 = Raise (HTTPException 500 "Internal server error") /\
  outbound_requests (chat request env w').1 = outbound_requests w.
Proof.
  intros Hc w'. destruct (serve_client_closed calls w Hc) as [H1 H2]. fold w' in H1, H2.
  repeat split; try done; rewrite (chat_client_closed _ _ _ H1); done.
Qed.

Lemma closed_client_stays_closed_witness :
  let w := (health_check (ok_200 (JObj [])) fresh).1 in
  let calls := [request_to "GET" "/api/v1/models" (temperature_body 1.5);
                request_to "POST" "/api/v1/chat" (temperature_body 1.5)] in
  http_client w = CLOSED /\
  http_client (serve calls w).1 = CLOSED /\
  (chat hi_request (answers (ok_200 (completion []))) (serve calls w).1).2
  = Raise (HTTPException 500 "Internal server error").
Proof.
  intros w calls. split; [reflexivity|].
  destruct (closed_client_stays_closed calls w hi_request
              (answers (ok_200 (completion []))) eq_refl) as (H1 & _ & H2 & _).
  split; [exact H1|exact H2].
Defined.

(** X2: from process start on, whatever requests are served, the shared
    client is handed at most one request in all: either nothing was sent
    yet and the client is unopened, or the client is closed for good. *)
Theorem serve_sends_at_most_one_request s vertex_init calls :
  let w := (serve calls (startup s vertex_init)).1 in
  (http_client w = UNOPENED /\ outbound_requests w = []) \/
  (http_client w = CLOSED /\ exists x, outbound_requests w = [x]).
Proof.
  assert (H : forall calls w,
             http_client w = UNOPENED -> outbound_requests w = [] ->
             (http_client (serve calls w).1 = UNOPENED /\
              outbound_requests (serve calls w).1 = []) \/
             (http_client (serve calls w).1 = CLOSED /\
              exists x, outbound_requests (serve calls w).1 = [x])).
  { clear. induction calls as [|c rest IH]; intros w Hc Ho; [by left|]. simpl.
    destruct (app_client c w) as [_ Happ].
    destruct (Happ Hc) as [[H1 H2]|[H1 [x H2]]].
    - destruct (app c w) as [w1 sv]. simpl in *.
      rewrite Ho in H2. specialize (IH w1 H1 H2).
      by destruct (serve rest w1) as [w2 ss].
    - pose proof (serve_client_closed rest (app c w).1 H1) as [H3 H4].
      destruct (app c w) as [w1 sv]. simpl in *.
      destruct (serve rest w1) as [w2 ss]. simpl in *.
      right. split; [done|]. exists x. rewrite H4, H2, Ho. done. }
  intros w. apply H; reflexivity.
Qed.

(** ** The health probe and the model list *)

(** X3: the health probe never fails and its reply always says "healthy" as
    overall status, whatever the two services are.  The "litellm" entry is
    "healthy" exactly when the shared client could still be entered and the
    proxy answered 200, and "unhealthy" otherwise; the "vertex_ai" entry
    follows the availability flag. *)
Theorem health_check_reply_report outcome now w :
  exists reply,
    (health_check_reply outcome now w).2 = Return reply /\
    health_status reply = "healthy" /\
    health_services reply !! "litellm"
    = Some (match http_client w, outcome with
            | UNOPENED, Return r => if status_code r =? 200 then "healthy" else "unhealthy"
            | _, _ => "unhealthy"
            end) /\
    health_services reply !! "vertex_ai"
    = Some (if vertex_ai_available w then "healthy" else "unhealthy").
Proof.
  unfold health_check_reply. unfold bind at 1.
  unfold health_check, try_except, async_with_http_client, bind, aenter, client_get, ret.
  destruct (http_client w) eqn:Hc; simpl.
  - destruct outcome as [r|e]; simpl; eexists; repeat split.
  - eexists; repeat split.
  - eexists; repeat split.
Qed.

(** X4: [list_models] returns the proxy's JSON exactly when the shared
    client could still be entered, the proxy answered 200 and the body
    parsed; every failure, the 502 raised for another status included,
    reaches the caller as status 500 "Internal server error". *)
Theorem list_models_outcome outcome w :
  (forall body,
     (list_models outcome w).2 = Return body <->
     http_client w = UNOPENED /\
     exists r, outcome = Return r /\ status_code r = 200 /\ json r = Return body) /\
  (forall e,
     (list_models outcome w).2 = Raise e ->
     e = HTTPException 500 "Internal server error").
Proof.
  run_client_handler.
  destruct (http_client w) eqn:Hc; simpl.
  - destruct outcome as [r|e0]; simpl.
    + destruct (status_code r =? 200) eqn:Hs; simpl.
      * destruct (json r) as [b|e1] eqn:Hj; simpl; split.
        -- intros body. split.
           ++ intros [= <-]. split; [done|]. exists r. repeat split; [lia|done].
           ++ intros (_ & r' & [= <-] & _ & Hj'). congruence.
        -- done.
        -- intros body. split; [done|].
           intros (_ & r' & [= <-] & _ & Hj'). congruence.
        -- by intros e [= <-].
      * split.
        -- intros body. split; [done|]. intros (_ & r' & [= <-] & Hs' & _). lia.
        -- by intros e [= <-].
    + split.
      * intros body. split; [done|]. by intros (_ & r' & ? & _).
      * by intros e [= <-].
  - split; [intros body; split; [done|by intros [? _]]|by intros e [= <-]].
  - split; [intros body; split; [done|by intros [? _]]|by intros e [= <-]].
Qed.

(** ** Failures of [chat] *)

(** X5: whatever goes wrong, [chat] fails with one of three replies: 504
    "Request timeout", 502 "Connection error: ..." or 500 "Internal server
    error".  No other status, and none taken from the upstream, reaches the
    caller. *)
Theorem chat_failure_statuses request env w e :
  (chat request env w).2 = Raise e ->
  e = HTTPException 504 "Request timeout" \/
  (exists msg, e = HTTPException 502 ("Connection error: " +:+ msg)) \/
  e = HTTPException 500 "Internal server error".
Proof.
  unfold chat, try_except.
  destruct (chat_body request env w) as [w1 [a|e1]]; [done|].
  destruct e1; simpl; intros [= <-]; eauto.
Qed.

Lemma chat_failure_statuses_witness :
  let e := HTTPException 502 "Connection error: refused" in
  (chat hi_request (answers (Raise (RequestError "refused"))) fresh).2 = Raise e /\
  (e = HTTPException 504 "Request timeout" \/
   (exists msg, e = HTTPException 502 ("Connection error: " +:+ msg)) \/
   e = HTTPException 500 "Internal server error").
Proof.
  intros e. split; [reflexivity|].
  apply (chat_failure_statuses hi_request (answers (Raise (RequestError "refused"))) fresh).
  reflexivity.
Defined.

(** X6: when the connection to the proxy fails, [chat] fails with status 502
    and the detail "Connection error: " followed by the error's message; the
    counter of [(model, "error")] goes up by exactly one and no other
    counter moves; no background task is added and nothing is logged. *)
Theorem chat_request_error_outcome request env w msg :
  http_client w = UNOPENED ->
  post env = Raise (RequestError msg) ->
  let w' := (chat request env w).1 in
  (chat request env w).2 = Raise (HTTPException 502 ("Connection error: " +:+ msg)) /\
  LITELLM_REQUESTS w' !!! (ChatRequest.model request, "error")
  = S (LITELLM_REQUESTS w !!! (ChatRequest.model request, "error")) /\
  (forall k, k ≠ (ChatRequest.model request, "error") ->
             LITELLM_REQUESTS w' !!! k = LITELLM_REQUESTS w !!! k) /\
  background_tasks w' = background_tasks w /\
  error_log w' = error_log w.
Proof.
  intros Hc Hp w'. subst w'. rewrite (chat_request_error _ _ _ msg) by done. simpl.
  repeat split; [apply inc_same|]. intros k Hk. by apply inc_other.
Qed.

Lemma chat_request_error_outcome_witness :
  let env := answers (Raise (RequestError "refused")) in
  (chat hi_request env fresh).2 = Raise (HTTPException 502 "Connection error: refused") /\
  LITELLM_REQUESTS (chat hi_request env fresh).1 !!! ("gpt-x", "error") = 1%nat.
Proof.
  intros env.
  destruct (chat_request_error_outcome hi_request env fresh "refused" eq_refl eq_refl)
    as (H1 & H2 & _).
  split; [exact H1|exact H2].
Defined.

Lemma ai_response_of_raises body e :
  ai_response_of body = Raise e -> exists cls msg, e = PyError cls msg.
Proof.
  assert (Hg : forall o k e, getitem o k = Raise e -> exists cls msg, e = PyError cls msg).
  { intros o k e0. destruct o as [| | | | |items]; simpl; try (intros [= <-]; by eauto).
    destruct (dict_get k items); [done|]. intros [= <-]; eauto. }
  assert (Hg0 : forall o e, getitem0 o = Raise e -> exists cls msg, e = PyError cls msg).
  { intros o e0. destruct o as [| | |[|]|[|]|]; simpl; try done; intros [= <-]; eauto. }
  unfold ai_response_of.
  destruct (getitem body "choices") as [choices|] eqn:H1; [|intros [= <-]; eauto].
  destruct (getitem0 choices) as [choice|] eqn:H2; [|intros [= <-]; eauto].
  destruct (getitem choice "message") as [msg|] eqn:H3; [|intros [= <-]; eauto].
  eauto.
Qed.

(** X7: a 200 answer whose body has no [choices[0].message.content] makes
    [chat] fail with status 500; by then "success" has been counted, and
    "error" is counted on top of it; no background task is added. *)
Theorem chat_malformed_200_counts_success_and_error request env w r body e :
  http_client w = UNOPENED ->
  post env = Return r ->
  status_code r = 200 ->
  json r = Return body ->
  ai_response_of body = Raise e ->
  let w' := (chat request env w).1 in
  (chat request env w).2 = Raise (HTTPException 500 "Internal server error") /\
  LITELLM_REQUESTS w' !!! (ChatRequest.model request, "success")
  = S (LITELLM_REQUESTS w !!! (ChatRequest.model request, "success")) /\
  LITELLM_REQUESTS w' !!! (ChatRequest.model request, "error")
  = S (LITELLM_REQUESTS w !!! (ChatRequest.model request, "error")) /\
  background_tasks w' = background_tasks w.
Proof.
  intros Hc Hp Hs Hj Hai.
  destruct (ai_response_of_raises _ _ Hai) as (cls & msg & ->).
  revert Hai. unfold ai_response_of. run_chat.
  rewrite Hc; simpl. rewrite Hp, Hs; simpl. rewrite Hj; simpl.
  destruct (getitem body "choices") as [choices|]; simpl.
  2: { intros [= ->]. simpl. repeat split.
       - rewrite inc_other by congruence. apply inc_same.
       - rewrite inc_same. by rewrite inc_other by congruence. }
  destruct (getitem0 choices) as [choice|]; simpl.
  2: { intros [= ->]. simpl. repeat split.
       - rewrite inc_other by congruence. apply inc_same.
       - rewrite inc_same. by rewrite inc_other by congruence. }
  destruct (getitem choice "message") as [m|]; simpl.
  2: { intros [= ->]. simpl. repeat split.
       - rewrite inc_other by congruence. apply inc_same.
       - rewrite inc_same. by rewrite inc_other by congruence. }
  intros ->. simpl. repeat split.
  - rewrite inc_other by congruence. apply inc_same.
  - rewrite inc_same. by rewrite inc_other by congruence.
Qed.

Lemma chat_malformed_200_counts_success_and_error_witness :
  let w' := (chat hi_request (answers (ok_200 (JObj [("choices", JArr [])]))) fresh).1 in
  LITELLM_REQUESTS w' !!! ("gpt-x", "success") = 1%nat /\
  LITELLM_REQUESTS w' !!! ("gpt-x", "error") = 1%nat.
Proof.
  intros w'.
  destruct (chat_malformed_200_counts_success_and_error hi_request
              (answers (ok_200 (JObj [("choices", JArr [])]))) fresh
              {| status_code := 200; text := "{...}";
                 json := Return (JObj [("choices", JArr [])]) |}
              (JObj [("choices", JArr [])])
              (PyError "IndexError" "list index out of range")
              eq_refl eq_refl eq_refl eq_refl eq_refl) as (_ & H1 & H2 & _).
  split; [exact H1|exact H2].
Defined.

(** ** Successes of [chat] *)




(** X9: a call of [chat] that returns has counted "success" exactly once and
    moved no other counter, has posted the payload once, has logged no
    error, has left the client closed, and has scheduled exactly one
    background task, which carries the request's model and message and the
    text that is returned; the response's processing time is the difference
    of the two clock readings and its timestamp the current time. *)
Theorem chat_success_effects request env w w' resp :
  chat request env w = (w', Return resp) ->
  LITELLM_REQUESTS w' !!! (ChatRequest.model request, "success")
  = S (LITELLM_REQUESTS w !!! (ChatRequest.model request, "success")) /\
  (forall k, k ≠ (ChatRequest.model request, "success") ->
             LITELLM_REQUESTS w' !!! k = LITELLM_REQUESTS w !!! k) /\
  outbound_requests w'
  = (outbound_requests w ++ [POST (completions_url w) (litellm_request request)])%list /\
  error_log w' = error_log w /\
  http_client w' = CLOSED /\
  (exists task,
     background_tasks w' = (background_tasks w ++ [task])%list /\
     task_model task = ChatRequest.model request /\
     task_user_message task = ChatRequest.message request /\
     task_ai_response task = JStr (ChatResponse.response resp) /\
     task_processing_time task = ChatResponse.processing_time resp) /\
  ChatResponse.processing_time resp = PrimFloat.sub (end_time env) (start_time env) /\
  ChatResponse.timestamp resp = utcnow env.
Proof.
  intros (r & body & ai & tokens & _ & _ & _ & _ & _ & _ & Hnew & ->)%chat_return_inv.
  apply ChatResponse_new_inv in Hnew as (s & toks & -> & _ & ->). simpl.
  repeat split.
  - apply inc_same.
  - intros k Hk. by apply inc_other.
  - eexists. repeat split.
Qed.

Lemma chat_success_effects_witness :
  let env := answers (ok_200 (completion [("usage", JObj [("total_tokens", JNum 12)])])) in
  exists w' resp,
    chat hi_request env fresh = (w', Return resp) /\
    LITELLM_REQUESTS w' !!! ("gpt-x", "success") = 1%nat /\
    length (background_tasks w') = 1%nat /\
    ChatResponse.timestamp resp = 42.
Proof.
  intros env.
  destruct (chat hi_request env fresh) as [w' [resp|e]] eqn:Hrun; [|by vm_compute in Hrun].
  exists w', resp. split; [done|].
  destruct (chat_success_effects hi_request env fresh w' resp Hrun)
    as (H1 & _ & _ & _ & _ & (task & H2 & _) & _ & H3).
  split; [exact H1|]. split; [by rewrite H2|exact H3].
Defined.

(** ** [vertex_ai_chat] with the SDK at hand *)

(** X10: when Vertex AI is available and the SDK raises, while the model is
    built or while the content is generated, [vertex_ai_chat] fails with
    status 500 and the detail "Vertex AI error: " followed by the message of
    that exception, which is also logged; "error" is counted exactly once
    and "success" not at all. *)
Theorem vertex_ai_chat_sdk_failure request env w e :
  vertex_ai_available w = true ->
  sdk_model env = Raise e \/ (exists u, sdk_model env = Return u) /\ generate env = Raise e ->
  let w' := (vertex_ai_chat request env w).1 in
  (vertex_ai_chat request env w).2
  = Raise (HTTPException 500 ("Vertex AI error: " +:+ str e)) /\
  VERTEX_AI_REQUESTS w' !!! (ChatRequest.model request, "error")
  = S (VERTEX_AI_REQUESTS w !!! (ChatRequest.model request, "error")) /\
  (forall k, k ≠ (ChatRequest.model request, "error") ->
             VERTEX_AI_REQUESTS w' !!! k = VERTEX_AI_REQUESTS w !!! k) /\
  error_log w'
  = (error_log w ++ [ {| log_event := "Vertex AI request failed"; log_error := str e;
                         log_extra := Some ("model", ChatRequest.model request) |} ])%list.
Proof.
  intros Ha Hsdk. run_vertex_ai_chat. rewrite Ha. simpl.
  destruct Hsdk as [->|[[u ->] ->]]; simpl.
  - repeat split; [apply inc_same|]. intros k Hk. by apply inc_other.
  - repeat split; [apply inc_same|]. intros k Hk. by apply inc_other.
Qed.

Lemma vertex_ai_chat_sdk_failure_witness :
  let env := vertex_answers (Raise (PyError "ResourceExhausted" "quota exceeded")) in
  (vertex_ai_chat hi_request env fresh).2
  = Raise (HTTPException 500 "Vertex AI error: quota exceeded") /\
  VERTEX_AI_REQUESTS (vertex_ai_chat hi_request env fresh).1 !!! ("gpt-x", "error") = 1%nat.
Proof.
  intros env.
  destruct (vertex_ai_chat_sdk_failure hi_request env fresh
              (PyError "ResourceExhausted" "quota exceeded") eq_refl
              (or_intror (conj (ex_intro _ tt eq_refl) eq_refl))) as (H1 & H2 & _).
  split; [exact H1|exact H2].
Defined.

(** X11: when Vertex AI is available and the SDK answers with a text,
    [vertex_ai_chat] returns that text with the request's model and
    conversation id and without a token count; it has made exactly one SDK
    call, with the request's message as the only prompt and its temperature
    and max_tokens as generation settings (the system prompt is not passed
    on), and has counted "success" exactly once. *)
Theorem vertex_ai_chat_success request env w u g text :
  vertex_ai_available w = true ->
  sdk_model env = Return u ->
  generate env = Return g ->
  response_text g = Return text ->
  let w' := (vertex_ai_chat request env w).1 in
  (vertex_ai_chat request env w).2
  = Return (ChatResponse.mk text (ChatRequest.model request) None
              (ChatRequest.conversation_id request) (v_utcnow env)
              (PrimFloat.sub (v_end_time env) (v_start_time env))) /\
  sdk_calls w'
  = (sdk_calls w ++ [ {| gen_model := ChatRequest.model request;
                         gen_prompt := ChatRequest.message request;
                         gen_temperature := ChatRequest.temperature request;
                         gen_max_output_tokens := ChatRequest.max_tokens request |} ])%list /\
  VERTEX_AI_REQUESTS w' !!! (ChatRequest.model request, "success")
  = S (VERTEX_AI_REQUESTS w !!! (ChatRequest.model request, "success")) /\
  (forall k, k ≠ (ChatRequest.model request, "success") ->
             VERTEX_AI_REQUESTS w' !!! k = VERTEX_AI_REQUESTS w !!! k) /\
  error_log w' = error_log w.
Proof.
  intros Ha Hsdk Hg Ht. run_vertex_ai_chat. rewrite Ha, Hsdk, Hg. simpl. rewrite Ht. simpl.
  repeat split; [apply inc_same|]. intros k Hk. by apply inc_other.
Qed.

Lemma vertex_ai_chat_success_witness :
  let env := vertex_answers (generated "yo") in
  (exists resp,
     (vertex_ai_chat hi_request env fresh).2 = Return resp /\
     ChatResponse.response resp = "yo") /\
  length (sdk_calls (vertex_ai_chat hi_request env fresh).1) = 1%nat.
Proof.
  intros env.
  destruct (vertex_ai_chat_success hi_request env fresh tt {| response_text := Return "yo" |}
              "yo" eq_refl eq_refl eq_refl eq_refl) as (H1 & H2 & _).
  split; [eexists; split; [exact H1|reflexivity]|]. by rewrite H2.
Defined.

(** X12: when the SDK answers but reading the text of its answer raises,
    [vertex_ai_chat] fails with status 500 after "success" was counted:
    both "success" and "error" go up by one for the one call. *)
Theorem vertex_ai_chat_text_failure_counts_both request env w u g e :
  vertex_ai_available w = true ->
  sdk_model env = Return u ->
  generate env = Return g ->
  response_text g = Raise e ->
  let w' := (vertex_ai_chat request env w).1 in
  (vertex_ai_chat request env w).2
  = Raise (HTTPException 500 ("Vertex AI error: " +:+ str e)) /\
  VERTEX_AI_REQUESTS w' !!! (ChatRequest.model request, "success")
  = S (VERTEX_AI_REQUESTS w !!! (ChatRequest.model request, "success")) /\
  VERTEX_AI_REQUESTS w' !!! (ChatRequest.model request, "error")
  = S (VERTEX_AI_REQUESTS w !!! (ChatRequest.model request, "error")).
Proof.
  intros Ha Hsdk Hg Ht. run_vertex_ai_chat. rewrite Ha, Hsdk, Hg. simpl. rewrite Ht. simpl.
  repeat split.
  - rewrite inc_other by congruence. apply inc_same.
  - rewrite inc_same. by rewrite inc_other by congruence.
Qed.

Lemma vertex_ai_chat_text_failure_counts_both_witness :
  let blocked := {| response_text := Raise (PyError "ValueError" "blocked") |} in
  let w' := (vertex_ai_chat hi_request (vertex_answers (Return blocked)) fresh).1 in
  VERTEX_AI_REQUESTS w' !!! ("gpt-x", "success") = 1%nat /\
  VERTEX_AI_REQUESTS w' !!! ("gpt-x", "error") = 1%nat.
Proof.
  intros blocked w'.
  destruct (vertex_ai_chat_text_failure_counts_both hi_request
              (vertex_answers (Return blocked)) fresh tt blocked
              (PyError "ValueError" "blocked") eq_refl eq_refl eq_refl eq_refl)
    as (_ & H1 & H2).
  split; [exact H1|exact H2].
Defined.

(** ** The two handlers keep to their own backend *)

(** X13: [chat] makes no SDK call and moves no Vertex AI counter;
    [vertex_ai_chat] does not touch the shared HTTP client, hands it
    nothing, moves no LiteLLM counter and schedules no background task. *)
Theorem handlers_keep_to_their_backend request cenv venv w :
  (VERTEX_AI_REQUESTS (chat request cenv w).1 = VERTEX_AI_REQUESTS w /\
   sdk_calls (chat request cenv w).1 = sdk_calls w) /\
  (http_client (vertex_ai_chat request venv w).1 = http_client w /\
   outbound_requests (vertex_ai_chat request venv w).1 = outbound_requests w /\
   LITELLM_REQUESTS (vertex_ai_chat request venv w).1 = LITELLM_REQUESTS w /\
   background_tasks (vertex_ai_chat request venv w).1 = background_tasks w).
Proof.
  split.
  - by destruct (chat_frame request cenv w) as (_ & _ & H1 & H2 & _).
  - run_vertex_ai_chat. repeat step_handler; by repeat split.
Qed.

(** ** Bodies that validation turns down *)

(** X14: among the request bodies whose fields, where given, have the
    JSON type the model declares for them (a string for message, model,
    system_prompt and conversation_id, a number for temperature, an integer
    for max_tokens) or are null, a body is turned down exactly when its
    message is missing or null, its model is null, its temperature is a
    number for which [0.0 <= t] or [t <= 2.0] fails (a NaN included), or its
    max_tokens is an integer below 1 or above 4000; a string or a null given
    for the system prompt or the conversation id never makes it fail. *)
Theorem validate_rejects_exactly raw :
  validate raw = None <->
  raw_message raw = Absent \/ raw_message raw = Null \/
  raw_model raw = Null \/
  (exists t, raw_temperature raw = Val t /\
             (PrimFloat.leb 0.0 t && PrimFloat.leb t 2.0)%bool = false) \/
  (exists n, raw_max_tokens raw = Val n /\ (n < 1 \/ 4000 < n)).
Proof.
  change (validate raw = None <->
          raw_message raw = Absent \/ raw_message raw = Null \/
          raw_model raw = Null \/
          (exists t, raw_temperature raw = Val t /\ float_ge_le 0.0 2.0 t = false) \/
          (exists n, raw_max_tokens raw = Val n /\ (n < 1 \/ 4000 < n))).
  unfold validate.
  destruct raw as [m mo t mt sp cid]; simpl.
  split.
  - destruct m as [| |m]; simpl; [by left|by right; left|].
    destruct mo as [| |mo]; simpl; [|by right; right; left|];
      (destruct t as [| |t]; simpl;
       [| |destruct (float_ge_le 0 2 t) eqn:Ht;
           [|by intros _; right; right; right; left; eauto]];
       (destruct mt as [| |n]; simpl; [by destruct sp, cid..|];
        destruct (int_ge_le 1 4000 n) eqn:Hn; [by destruct sp, cid|];
        intros _; right; right; right; right; exists n; split; [done|];
        unfold int_ge_le in Hn; apply andb_false_iff in Hn; lia)).
  - intros [->|[->|[->|[(t' & -> & Ht)|(n & -> & Hn)]]]]; simpl; try done.
    + by destruct m.
    + destruct m; simpl; try done. destruct mo; simpl; try done; by rewrite Ht.
    + assert (int_ge_le 1 4000 n = false) as Hf.
      { unfold int_ge_le. apply andb_false_iff. lia. }
      destruct m; simpl; try done.
      destruct mo; simpl; try done;
        destruct t as [| |t]; simpl; rewrite ?Hf; try done;
        destruct (float_ge_le 0 2 t); by rewrite ?Hf.
Qed.

(** ** The audit record of a successful call *)

(** X15: the background task a returning call of [chat] has scheduled runs
    without an exception, and the record it logs holds the request's model,
    the number of characters of the request's message and of the returned
    text (not the texts), the processing time of the response, and the
    value found at [usage.total_tokens] of the upstream body as it came
    ([null] when there is none), not the converted count of the response. *)
Theorem chat_audit_record request env w w' resp :
  chat request env w = (w', Return resp) ->
  exists task body,
    background_tasks w' = (background_tasks w ++ [task])%list /\
    upstream_body env = Some body /\
    log_chat_request task
    = Return {| chat_log_model := ChatRequest.model request;
                user_message_length := str_len (ChatRequest.message request);
                ai_response_length := str_len (ChatResponse.response resp);
                chat_log_processing_time := ChatResponse.processing_time resp;
                chat_log_tokens_used :=
                  match total_tokens_field body with
                  | Some v => v
                  | None => JNull
                  end |}.
Proof.
  intros (r & body & ai & tokens & _ & Hp & _ & Hj & _ & Htok & Hnew & ->)%chat_return_inv.
  apply ChatResponse_new_inv in Hnew as (s & toks & -> & _ & ->). simpl.
  apply tokens_used_of_spec in Htok as (items & -> & Htok).
  eexists _, (JObj items). split; [reflexivity|]. split.
  { unfold upstream_body. by rewrite Hp, Hj. }
  unfold log_chat_request. simpl.
  by destruct (total_tokens_field (JObj items)); subst tokens.
Qed.

Lemma chat_audit_record_witness :
  let env := answers (ok_200 (completion [("usage", JObj [("total_tokens", JStr "12")])])) in
  exists w' resp task,
    chat hi_request env fresh = (w', Return resp) /\
    ChatResponse.tokens_used resp = Some 12 /\
    background_tasks w' = [task] /\
    log_chat_request task
    = Return {| chat_log_model := "gpt-x"; user_message_length := 2;
                ai_response_length := 2; chat_log_processing_time := 2.5;
                chat_log_tokens_used := JStr "12" |}.
Proof.
  intros env.
  destruct (chat hi_request env fresh) as [w' [resp|e]] eqn:Hrun; [|by vm_compute in Hrun].
  destruct (chat_audit_record hi_request env fresh w' resp Hrun)
    as (task & body & H1 & H2 & H3).
  exists w', resp, task. split; [done|].
  vm_compute in H2. injection H2 as <-.
  vm_compute in Hrun. injection Hrun as _ <-.
  split; [reflexivity|]. split; [exact H1|]. exact H3.
Defined.
